(** * Order service: mapper, data access and transactional workflows

    A shallow embedding of the order-management service:
    - utils/mapper: [mapToDatabaseFormat];
    - models/OrderModel: one parameterised statement per function;
    - services/OrderService: [createOrder], [getOrderDetails], [updateOrder],
      [updateItemOrder], [deleteOrder] and [formatOrderResponse];
    - exceptions/ResourceNotFoundException;
    - controller/OrderController: the six handlers;
    - the two exercise functions [somaImpares] and [inverterPalavra].
    The routes and the server bootstrap are not embedded: no property below is
    about them.

    JavaScript values are an inductive type whose numbers are IEEE-754
    binary64 floats. A thrown exception is a completion ([Normal] / [Throw]).
    Code that talks to the database runs in a state and exception monad over a
    world: the committed data, the transaction open on the client connection,
    the number of connections checked out of the pool, the trace of driver
    calls, and an oracle that decides which of those calls fail. Requests run
    one at a time: there is no interleaving of workflows. *)

From Stdlib Require Import ZArith List String Ascii Bool Lia.
From Stdlib Require Import PrimFloat FloatOps SpecFloat.
From Stdlib Require Import Permutation Sorted.
Import ListNotations.

Set Implicit Arguments.
Open Scope string_scope.
Open Scope Z_scope.

(** ** JavaScript values, as produced by [JSON.parse] of a request body

    An object is the list of its own properties, each key once. *)

#[warnings="-register-all"]
Inductive jsval : Type :=
| VUndef
| VNull
| VBool (b : bool)
| VNum (n : float)
| VStr (s : string)
| VArr (elems : list jsval)
| VObj (props : list (string * jsval)).

(** The errors this program can throw or receive. *)
Inductive error : Type :=
| TypeError (message : string)
| RangeError (message : string)
| ReferenceError (message : string)
| PlainError (message : string)                        (* [new Error(message)] *)
| NotFoundError (message : string) (statusCode : Z)    (* ResourceNotFoundException *)
| DatabaseError (code : string) (message : string).    (* raised by the pg driver *)

(** Completion of an expression or function body: a value or a throw. *)
Inductive completion (A : Type) : Type :=
| Normal (a : A)
| Throw (e : error).
Arguments Normal {A} a.
Arguments Throw {A} e.

Definition cbind {A B} (c : completion A) (k : A -> completion B) : completion B :=
  match c with
  | Normal a => k a
  | Throw e => Throw e
  end.

Declare Scope completion_scope.
Delimit Scope completion_scope with completion.
Notation "x <- c ;; k" := (cbind c (fun x => k))
  (at level 61, c at next level, right associativity) : completion_scope.

Fixpoint cmap {A B} (f : A -> completion B) (l : list A) : completion (list B) :=
  match l with
  | [] => Normal []
  | a :: r =>
      match f a with
      | Throw e => Throw e
      | Normal b =>
          match cmap f r with
          | Throw e => Throw e
          | Normal bs => Normal (b :: bs)
          end
      end
  end.

(** *** Characters and digits *)

Definition quote : string := String "034"%char EmptyString.

Definition digit_of (c : ascii) : option Z :=
  let n := Z.of_nat (nat_of_ascii c) in
  if (48 <=? n) && (n <=? 57) then Some (n - 48) else None.

Definition digit_char (d : Z) : ascii := ascii_of_nat (Z.to_nat (48 + d mod 10)).

(** [width] decimal digits of [n], zero padded (the low [width] digits). *)
Fixpoint pad (width : nat) (n : Z) : string :=
  match width with
  | O => EmptyString
  | S w => pad w (n / 10) ++ String (digit_char n) EmptyString
  end.

(** *** Property read and truthiness *)

Fixpoint lookup (k : string) (props : list (string * jsval)) : jsval :=
  match props with
  | [] => VUndef
  | (k', v) :: r => if String.eqb k k' then v else lookup k r
  end.

(** [o.k] for one of the property names this program reads ([numeroPedido],
    [dataCriacao], [valorTotal], [items], [idItem], [quantidadeItem],
    [valorItem], [quantity], [price]): none of them exists on a built-in
    prototype, so a primitive or an array yields [undefined]; reading from
    [undefined] or [null] throws. *)
Definition get (o : jsval) (k : string) : completion jsval :=
  match o with
  | VUndef => Throw (TypeError ("Cannot read properties of undefined (reading '" ++ k ++ "')"))
  | VNull => Throw (TypeError ("Cannot read properties of null (reading '" ++ k ++ "')"))
  | VObj props => Normal (lookup k props)
  | _ => Normal VUndef
  end.

Definition is_nan (f : float) : bool := negb (PrimFloat.eqb f f).

(** ToBoolean. *)
Definition truthy (v : jsval) : bool :=
  match v with
  | VUndef | VNull => false
  | VBool b => b
  | VNum n => negb (PrimFloat.eqb n 0 || is_nan n)
  | VStr s => negb (String.eqb s "")
  | VArr _ | VObj _ => true
  end.

(** [a || b], both operands already evaluated (the operands here are property
    reads of a plain object, which have no effect). *)
Definition js_or (a b : jsval) : jsval := if truthy a then a else b.

(** [x === undefined]. *)
Definition is_undefined (v : jsval) : bool :=
  match v with VUndef => true | _ => false end.

(** *** Numbers *)

(** The Number value for a mathematical integer (round to nearest, ties to
    even). *)
Definition number_of_Z (z : Z) : float := SF2Prim (binary_normalize prec emax z 0 false).

Definition NaN : float := PrimFloat.nan.

(** Truncation of a finite number towards zero; [None] for NaN and the
    infinities. *)
Definition trunc_number (f : float) : option Z :=
  match Prim2SF f with
  | S754_zero _ => Some 0
  | S754_finite s m e =>
      let mag := if 0 <=? e then Z.pos m * 2 ^ e else Z.pos m / 2 ^ (- e) in
      Some (if s then - mag else mag)
  | S754_infinity _ | S754_nan => None
  end.

(** ** What the host leaves to the implementation

    Three built-ins are taken as parameters: the Number-to-String conversion
    (shortest round-trip decimal), [parseFloat] on a string, and the parse of
    a date string that is not in the ECMAScript date-time format with an
    explicit offset (implementation heuristics and the local time zone). *)
Record Host : Type := {
  Number_toString : float -> string;
  parseFloat_string : string -> float;
  Date_parse_fallback : string -> option Z;
}.

Section WithHost.

Context (host : Host).

(** *** ToString *)

(** ToString; an array joins its elements with commas, [undefined] and [null]
    elements giving the empty string. *)
Fixpoint ToString (v : jsval) : string :=
  match v with
  | VUndef => "undefined"
  | VNull => "null"
  | VBool true => "true"
  | VBool false => "false"
  | VNum n => Number_toString host n
  | VStr s => s
  | VArr elems =>
      String.concat ","
        (map (fun e => match e with VUndef | VNull => "" | _ => ToString e end) elems)
  | VObj _ => "[object Object]"
  end.

(** *** [String.prototype.split] with a one-character separator *)

Fixpoint split_aux (sep : ascii) (cur : string) (s : string) : list string :=
  match s with
  | EmptyString => [cur]
  | String c r =>
      if Ascii.eqb c sep then cur :: split_aux sep EmptyString r
      else split_aux sep (cur ++ String c EmptyString) r
  end.

Definition split (sep : ascii) (s : string) : list string := split_aux sep EmptyString s.

(** [x.split(sep)]: only a string has the method. *)
Definition call_split (x : jsval) (sep : ascii) : completion (list string) :=
  match x with
  | VStr s => Normal (split sep s)
  | VUndef => Throw (TypeError "Cannot read properties of undefined (reading 'split')")
  | VNull => Throw (TypeError "Cannot read properties of null (reading 'split')")
  | _ => Throw (TypeError "split is not a function")
  end.

(** [xs.map(f)]: only an array has the method. *)
Definition call_map {B} (xs : jsval) (f : jsval -> completion B) : completion (list B) :=
  match xs with
  | VArr elems => cmap f elems
  | VUndef => Throw (TypeError "Cannot read properties of undefined (reading 'map')")
  | VNull => Throw (TypeError "Cannot read properties of null (reading 'map')")
  | _ => Throw (TypeError "map is not a function")
  end.

(** *** [parseInt(x, 10)] *)

(** Length in bytes of the white space or line terminator at the head of a
    string (UTF-8), 0 when there is none. *)
Definition white_prefix (s : string) : nat :=
  match s with
  | String c r =>
      let n := nat_of_ascii c in
      if ((9 <=? n) && (n <=? 13) || (n =? 32))%nat then 1%nat
      else
        match n, r with
        | 194%nat, String d _ => if (nat_of_ascii d =? 160)%nat then 2%nat else 0%nat
        | 225%nat, String d (String e _) =>
            if ((nat_of_ascii d =? 154) && (nat_of_ascii e =? 128))%nat then 3%nat else 0%nat
        | 226%nat, String d (String e _) =>
            let d := nat_of_ascii d in
            let e := nat_of_ascii e in
            if ((d =? 128) && (((128 <=? e) && (e <=? 138)) || (e =? 168) || (e =? 169) || (e =? 175))
                || ((d =? 129) && (e =? 159)))%nat
            then 3%nat else 0%nat
        | 227%nat, String d (String e _) =>
            if ((nat_of_ascii d =? 128) && (nat_of_ascii e =? 128))%nat then 3%nat else 0%nat
        | 239%nat, String d (String e _) =>
            if ((nat_of_ascii d =? 187) && (nat_of_ascii e =? 191))%nat then 3%nat else 0%nat
        | _, _ => 0%nat
        end
  | EmptyString => 0%nat
  end.

Fixpoint drop (n : nat) (s : string) : string :=
  match n, s with
  | S m, String _ r => drop m r
  | _, _ => s
  end.

Fixpoint trim_start_fuel (fuel : nat) (s : string) : string :=
  match fuel with
  | O => s
  | S f =>
      match white_prefix s with
      | O => s
      | n => trim_start_fuel f (drop n s)
      end
  end.

Definition trim_start (s : string) : string := trim_start_fuel (String.length s) s.

(** The longest prefix of decimal digits, read as an integer; [None] when the
    string does not start with a digit. *)
Fixpoint digits_prefix (acc : option Z) (s : string) : option Z :=
  match s with
  | String c r =>
      match digit_of c with
      | Some d => digits_prefix (Some (10 * match acc with Some a => a | None => 0 end + d)) r
      | None => acc
      end
  | EmptyString => acc
  end.

Definition parseInt10 (x : jsval) : float :=
  let s := trim_start (ToString x) in
  let '(neg, s) :=
    match s with
    | String "-"%char r => (true, r)
    | String "+"%char r => (false, r)
    | _ => (false, s)
    end in
  match digits_prefix None s with
  | None => NaN
  | Some z => if neg then PrimFloat.opp (number_of_Z z) else number_of_Z z
  end.

(** *** [Date]: time values, the date-time string format, [toISOString] *)

Definition msPerDay : Z := 86400000.

(** Days from 1970-01-01 to the civil date [y]-[m]-[d] (proleptic Gregorian). *)
Definition days_from_civil (y m d : Z) : Z :=
  let y' := if m <=? 2 then y - 1 else y in
  let era := y' / 400 in
  let yoe := y' - era * 400 in
  let doy := (153 * (if 2 <? m then m - 3 else m + 9) + 2) / 5 + d - 1 in
  let doe := yoe * 365 + yoe / 4 - yoe / 100 + doy in
  era * 146097 + doe - 719468.

(** The civil date of a day number. *)
Definition civil_from_days (days : Z) : Z * Z * Z :=
  let z := days + 719468 in
  let era := z / 146097 in
  let doe := z - era * 146097 in
  let yoe := (doe - doe / 1460 + doe / 36524 - doe / 146096) / 365 in
  let doy := doe - (365 * yoe + yoe / 4 - yoe / 100) in
  let mp := (5 * doy + 2) / 153 in
  let d := doy - (153 * mp + 2) / 5 + 1 in
  let m := if mp <? 10 then mp + 3 else mp - 9 in
  ((if m <=? 2 then yoe + era * 400 + 1 else yoe + era * 400), m, d).

Definition is_leap (y : Z) : bool :=
  ((y mod 4 =? 0) && negb (y mod 100 =? 0)) || (y mod 400 =? 0).

Definition days_in_month (y m : Z) : Z :=
  if m =? 2 then (if is_leap y then 29 else 28)
  else if (m =? 4) || (m =? 6) || (m =? 9) || (m =? 11) then 30
  else 31.

(** TimeClip: a time value is an integer number of milliseconds within
    8.64e15 of the epoch; anything else is NaN ([None]). *)
Definition time_clip (t : option Z) : option Z :=
  match t with
  | Some t => if Z.abs t <=? 8640000000000000 then Some t else None
  | None => None
  end.

(** Exactly [n] decimal digits at the head of [s]. *)
Fixpoint take_digits (n : nat) (acc : Z) (s : string) : option (Z * string) :=
  match n with
  | O => Some (acc, s)
  | S k =>
      match s with
      | String c r =>
          match digit_of c with
          | Some d => take_digits k (10 * acc + d) r
          | None => None
          end
      | EmptyString => None
      end
  end.

Definition parse_year (s : string) : option (Z * string) :=
  match s with
  | String "+"%char r => take_digits 6 0 r
  | String "-"%char r =>
      match take_digits 6 0 r with
      | Some (y, r') => if y =? 0 then None else Some (- y, r')
      | None => None
      end
  | _ => take_digits 4 0 s
  end.

(** An optional [-NN] field. *)
Definition parse_dash_field (s : string) : option Z * string :=
  match s with
  | String "-"%char r =>
      match take_digits 2 0 r with
      | Some (v, r') => (Some v, r')
      | None => (None, s)
      end
  | _ => (None, s)
  end.

(** [Z] or [+HH:mm] / [-HH:mm] to the end of the string, in milliseconds. *)
Definition parse_offset (s : string) : option Z :=
  match s with
  | String "Z"%char EmptyString => Some 0
  | String sg r =>
      if Ascii.eqb sg "+" || Ascii.eqb sg "-" then
        match take_digits 2 0 r with
        | Some (h, String ":"%char r1) =>
            match take_digits 2 0 r1 with
            | Some (m, EmptyString) =>
                if (h <=? 23) && (m <=? 59) then
                  let off := (h * 60 + m) * 60000 in
                  Some (if Ascii.eqb sg "-" then - off else off)
                else None
            | _ => None
            end
        | _ => None
        end
      else None
  | EmptyString => None
  end.

(** [HH:mm], [HH:mm:ss] or [HH:mm:ss.sss] followed by an explicit offset:
    milliseconds since midnight UTC of the same day. A time without offset is
    local time and is left to the host. *)
Definition parse_time (s : string) : option Z :=
  match take_digits 2 0 s with
  | Some (h, String ":"%char r1) =>
      match take_digits 2 0 r1 with
      | Some (mi, r2) =>
          let '(sec, r3) :=
            match r2 with
            | String ":"%char r =>
                match take_digits 2 0 r with
                | Some (v, r') => (Some v, r')
                | None => (None, r2)
                end
            | _ => (None, r2)
            end in
          let '(ms, r4) :=
            match sec, r3 with
            | Some _, String "."%char r =>
                match take_digits 3 0 r with
                | Some (v, r') => (v, r')
                | None => (0, r3)
                end
            | _, _ => (0, r3)
            end in
          let sec := match sec with Some v => v | None => 0 end in
          if ((h <=? 23) && (mi <=? 59) && (sec <=? 59))
             || ((h =? 24) && (mi =? 0) && (sec =? 0) && (ms =? 0)) then
            match parse_offset r4 with
            | Some off => Some (h * 3600000 + mi * 60000 + sec * 1000 + ms - off)
            | None => None
            end
          else None
      | None => None
      end
  | _ => None
  end.

(** A string of the ECMAScript date-time format whose meaning does not depend
    on the local time zone: a date-only form (UTC) or a date-time form with
    an explicit offset. *)
Definition iso_parse (s : string) : option Z :=
  match parse_year s with
  | None => None
  | Some (y, r0) =>
      let '(mo, r1) := parse_dash_field r0 in
      let '(dd, r2) := match mo with Some _ => parse_dash_field r1 | None => (None, r1) end in
      let m := match mo with Some v => v | None => 1 end in
      let d := match dd with Some v => v | None => 1 end in
      if (1 <=? m) && (m <=? 12) && (1 <=? d) && (d <=? days_in_month y m) then
        let day := days_from_civil y m d * msPerDay in
        match r2 with
        | EmptyString => Some day
        | String "T"%char r3 =>
            match parse_time r3 with
            | Some t => Some (day + t)
            | None => None
            end
        | _ => None
        end
      else None
  end.

(** [Date.parse]. *)
Definition Date_parse (s : string) : option Z :=
  match iso_parse s with
  | Some t => time_clip (Some t)
  | None => time_clip (Date_parse_fallback host s)
  end.

(** The time value of [new Date(v)] for one argument; [None] is NaN, an
    invalid date. *)
Definition new_Date (v : jsval) : option Z :=
  match v with
  | VStr s => Date_parse s
  | VUndef => None
  | VNull => Some 0
  | VBool b => Some (if b then 1 else 0)
  | VNum n => time_clip (trunc_number n)
  | VArr _ | VObj _ => Date_parse (ToString v)
  end.

Definition iso_year (y : Z) : string :=
  if (0 <=? y) && (y <=? 9999) then pad 4 y
  else (if y <? 0 then "-" else "+") ++ pad 6 (Z.abs y).

(** The ISO-8601 text of a valid time value. *)
Definition iso_string (t : Z) : string :=
  let '(y, m, d) := civil_from_days (t / msPerDay) in
  let r := t mod msPerDay in
  iso_year y ++ "-" ++ pad 2 m ++ "-" ++ pad 2 d ++ "T"
    ++ pad 2 (r / 3600000) ++ ":" ++ pad 2 (r / 60000 mod 60) ++ ":"
    ++ pad 2 (r / 1000 mod 60) ++ "." ++ pad 3 (r mod 1000) ++ "Z".

(** [date.toISOString()]: throws a RangeError on an invalid date. *)
Definition toISOString (tv : option Z) : completion string :=
  match tv with
  | Some t => Normal (iso_string t)
  | None => Throw (RangeError "Invalid time value")
  end.

End WithHost.

(** ** utils/mapper *)

(** The database-shaped order built by the mapper. *)
Record item_data : Type := {
  productId : float;
  quantity : jsval;
  price : jsval;
}.

Record order_data : Type := {
  orderId : string;
  value : jsval;
  creationDate : string;
  items : list item_data;
}.

Section Mapper.

Context (host : Host).

Local Open Scope completion_scope.

(** The arrow function mapped over the items. *)
Definition transformItem (item : jsval) : completion item_data :=
  idItem <- get item "idItem" ;;
  quantidadeItem <- get item "quantidadeItem" ;;
  valorItem <- get item "valorItem" ;;
  Normal {| productId := parseInt10 host idItem;
            quantity := quantidadeItem;
            price := valorItem |}.

Definition mapToDatabaseFormat (inputOrder : jsval) : completion order_data :=
  numeroPedido <- get inputOrder "numeroPedido" ;;
  parts <- call_split numeroPedido "-" ;;
  let orderId := nth 0 parts "" in
  dataCriacao <- get inputOrder "dataCriacao" ;;
  creationDate <- toISOString (new_Date host dataCriacao) ;;
  inputItems <- get inputOrder "items" ;;
  transformedItems <- call_map inputItems transformItem ;;
  valorTotal <- get inputOrder "valorTotal" ;;
  Normal {| orderId := orderId;
            value := valorTotal;
            creationDate := creationDate;
            items := transformedItems |}.

End Mapper.

(** ** exceptions/ResourceNotFoundException *)

(** [new ResourceNotFoundException(resourceName, identifier)]: the message
    interpolates both arguments; [name] is fixed and [statusCode] is 404. *)
Definition ResourceNotFoundException (resourceName identifier : string) : error :=
  NotFoundError
    (resourceName ++ " com identificador " ++ quote ++ identifier ++ quote
       ++ " não foi encontrado.")
    404.

(** Evaluation of [new C(...)] where [C] is the identifier
    [ResourceNotFoundException], in a module whose top-level bindings are
    [scope]: the identifier is resolved first, and an identifier bound neither
    in the module nor globally throws a ReferenceError. *)
Definition new_ResourceNotFoundException
    (scope : list string) (resourceName identifier : string) : completion error :=
  if existsb (String.eqb "ResourceNotFoundException") scope
  then Normal (ResourceNotFoundException resourceName identifier)
  else Throw (ReferenceError "ResourceNotFoundException is not defined").

(** ** The store: PostgreSQL behind the pg driver *)

(** Modelled from the spec: the schema, which is not among the sources:
    [Orders(orderId PK, value, creationDate)] and
    [Items(itemId PK, orderId FK, productId, quantity, price)], [productId] an
    integer and [creationDate] a timestamp. A row is what the driver hands back
    (lower-case column names); the surrogate [itemId] is never read by the
    program and is left out. The cells of [value], [quantity] and [price]
    keep the value as it was bound; a value that the server would refuse for
    its column is one of the failures the fault oracle of the world stands
    for. How the server converts a value that it accepts to the type of the
    column (and a timestamp to the time zone of the session) is not
    modelled. *)
Record order_row : Type := {
  orderid : string;
  row_value : jsval;
  creationdate : Z;            (* a Date object, by its time value *)
}.

Record item_row : Type := {
  item_orderid : string;
  productid : Z;
  row_quantity : jsval;
  row_price : jsval;
}.

Record database : Type := {
  Orders : list order_row;
  Items : list item_row;
}.

(** The result of a query: the rows and the number of rows affected. *)
Record result (R : Type) : Type := {
  rows : list R;
  rowCount : nat;
}.
Arguments rows {R} r.
Arguments rowCount {R} r.

(** Every statement text the program sends, with its parameters. *)
Inductive statement : Type :=
| BEGIN
| COMMIT
| ROLLBACK
| InsertOrder (orderId : string) (value : jsval) (creationDate : string)
| InsertItem (orderId : string) (productId : float) (quantity price : jsval)
| SelectOrderById (orderId : string)
| SelectItemsByOrderId (orderId : string)
| UpdateOrder (value : jsval) (creationDate : string) (orderId : string)
| UpdateItem (quantity price : jsval) (orderId : string) (productId : float)
| DeleteItems (orderId : string)
| DeleteOrder (orderId : string).

(** The driver binds [undefined] as NULL. *)
Definition prepareValue (v : jsval) : jsval :=
  match v with VUndef => VNull | _ => v end.

(** A number bound to an integer column: its text must denote an integer in
    the range of the type. *)
Definition int4_in (f : float) : completion Z :=
  match trunc_number f with
  | Some z =>
      if PrimFloat.eqb (number_of_Z z) f then
        if (- 2147483648 <=? z) && (z <=? 2147483647) then Normal z
        else Throw (DatabaseError "22003" "value out of range for type integer")
      else Throw (DatabaseError "22P02" "invalid input syntax for type integer")
  | None => Throw (DatabaseError "22P02" "invalid input syntax for type integer")
  end.

(** The text of a timestamp as bound, read back as a Date. *)
Definition timestamp_in (s : string) : completion Z :=
  match iso_parse s with
  | Some t => Normal t
  | None => Throw (DatabaseError "22007" "invalid input syntax for type timestamp")
  end.

Definition has_order (id : string) (db : database) : bool :=
  existsb (fun r => String.eqb (orderid r) id) (Orders db).

Section Engine.

Local Open Scope completion_scope.

(** INSERT INTO Orders: the primary key refuses a duplicate [orderId]. *)
Definition sql_insert_order (id : string) (v : jsval) (date : string) (db : database)
  : completion (database * result unit) :=
  t <- timestamp_in date ;;
  if has_order id db then
    Throw (DatabaseError "23505" "duplicate key value violates unique constraint")
  else
    Normal ({| Orders := Orders db ++ [{| orderid := id; row_value := prepareValue v;
                                          creationdate := t |}];
               Items := Items db |},
            {| rows := []; rowCount := 1 |}).

(** INSERT INTO Items: the foreign key needs the order. *)
Definition sql_insert_item (id : string) (pid : float) (q p : jsval) (db : database)
  : completion (database * result unit) :=
  n <- int4_in pid ;;
  if has_order id db then
    Normal ({| Orders := Orders db;
               Items := Items db ++ [{| item_orderid := id; productid := n;
                                        row_quantity := prepareValue q;
                                        row_price := prepareValue p |}] |},
            {| rows := []; rowCount := 1 |})
  else Throw (DatabaseError "23503" "insert or update violates foreign key constraint").

Definition sql_select_order (id : string) (db : database)
  : completion (database * result order_row) :=
  let found := filter (fun r => String.eqb (orderid r) id) (Orders db) in
  Normal (db, {| rows := found; rowCount := List.length found |}).

Definition sql_select_items (id : string) (db : database)
  : completion (database * result item_row) :=
  let found := filter (fun r => String.eqb (item_orderid r) id) (Items db) in
  Normal (db, {| rows := found; rowCount := List.length found |}).

(** UPDATE Orders ... WHERE orderId = $3 RETURNING orderId. *)
Definition sql_update_order (v : jsval) (date : string) (id : string) (db : database)
  : completion (database * result string) :=
  t <- timestamp_in date ;;
  let hit r := String.eqb (orderid r) id in
  let touched := filter hit (Orders db) in
  Normal ({| Orders := map (fun r => if hit r
                                     then {| orderid := orderid r; row_value := prepareValue v;
                                             creationdate := t |}
                                     else r) (Orders db);
             Items := Items db |},
          {| rows := map orderid touched; rowCount := List.length touched |}).

(** UPDATE Items ... WHERE orderId = $3 AND productId = $4 RETURNING itemId;
    the returned [itemId]s are not modelled, only their number. *)
Definition sql_update_item (q p : jsval) (id : string) (pid : float) (db : database)
  : completion (database * result unit) :=
  n <- int4_in pid ;;
  let hit r := String.eqb (item_orderid r) id && (productid r =? n) in
  let touched := filter hit (Items db) in
  Normal ({| Orders := Orders db;
             Items := map (fun r => if hit r
                                    then {| item_orderid := item_orderid r;
                                            productid := productid r;
                                            row_quantity := prepareValue q;
                                            row_price := prepareValue p |}
                                    else r) (Items db) |},
          {| rows := map (fun _ => tt) touched; rowCount := List.length touched |}).

Definition sql_delete_items (id : string) (db : database)
  : completion (database * result unit) :=
  let gone := filter (fun r => String.eqb (item_orderid r) id) (Items db) in
  Normal ({| Orders := Orders db;
             Items := filter (fun r => negb (String.eqb (item_orderid r) id)) (Items db) |},
          {| rows := []; rowCount := List.length gone |}).

(** DELETE FROM Orders WHERE orderId = $1. Modelled from the spec: the item
    rows of a removed order go with it (ON DELETE CASCADE); [rowCount] counts
    the header rows only. *)
Definition sql_delete_order (id : string) (db : database)
  : completion (database * result unit) :=
  let gone := filter (fun r => String.eqb (orderid r) id) (Orders db) in
  Normal ({| Orders := filter (fun r => negb (String.eqb (orderid r) id)) (Orders db);
             Items := match gone with
                      | [] => Items db
                      | _ => filter (fun r => negb (String.eqb (item_orderid r) id)) (Items db)
                      end |},
          {| rows := []; rowCount := List.length gone |}).

End Engine.

Definition row_of (st : statement) : Type :=
  match st with
  | SelectOrderById _ => order_row
  | SelectItemsByOrderId _ => item_row
  | UpdateOrder _ _ _ => string
  | _ => unit
  end.

Definition no_rows {R : Type} : result R := {| rows := []; rowCount := 0 |}.

(** What a statement does to the data it sees. *)
Definition run (st : statement) (db : database)
  : completion (database * result (row_of st)) :=
  match st with
  | BEGIN => Normal (db, no_rows)
  | COMMIT => Normal (db, no_rows)
  | ROLLBACK => Normal (db, no_rows)
  | InsertOrder id v d => sql_insert_order id v d db
  | InsertItem id pid q p => sql_insert_item id pid q p db
  | SelectOrderById id => sql_select_order id db
  | SelectItemsByOrderId id => sql_select_items id db
  | UpdateOrder v d id => sql_update_order v d id db
  | UpdateItem q p id pid => sql_update_item q p id pid db
  | DeleteItems id => sql_delete_items id db
  | DeleteOrder id => sql_delete_order id db
  end.

(** ** The pool, the client connection and the transaction *)

Inductive event : Type :=
| Connect (acquired : bool)                  (* pool.connect(), and whether it gave a client *)
| Release                                    (* client.release() *)
| Query (on_client : bool) (st : statement). (* client.query / the pool's query *)

(** The world a workflow runs in. [committed] is what every session sees;
    [session] is the working copy of the transaction open on the client
    connection, if any; [checked_out] counts the connections acquired and not
    yet released; [trace] lists the driver calls made so far; [faults] tells
    for each call, by its position in the trace, whether the server or the
    network fails it with an error of its own; ROLLBACK is such a call like
    any other. A call that fails changes no data. [release] is synchronous
    and does not fail. *)
Record world : Type := {
  committed : database;
  session : option database;
  checked_out : nat;
  trace : list event;
  faults : nat -> option error;
}.

Definition M (A : Type) : Type := world -> completion A * world.

Definition ret {A} (a : A) : M A := fun w => (Normal a, w).
Definition throw {A} (e : error) : M A := fun w => (Throw e, w).
Definition lift {A} (c : completion A) : M A := fun w => (c, w).

Definition mbind {A B} (m : M A) (k : A -> M B) : M B :=
  fun w =>
    match m w with
    | (Normal a, w') => k a w'
    | (Throw e, w') => (Throw e, w')
    end.

Declare Scope M_scope.
Delimit Scope M_scope with M.
Bind Scope M_scope with M.
Notation "x <- c ;; k" := (mbind c (fun x => k))
  (at level 61, c at next level, right associativity) : M_scope.
Notation "c ;;; k" := (mbind c (fun _ => k))
  (at level 61, right associativity) : M_scope.

(** [try { body } catch (error) { handler } finally { cleanup }]: the
    [finally] block runs on every way out, and the completion of the [try] or
    [catch] block stands unless the cleanup itself throws. *)
Definition try_catch_finally {A}
    (body : M A) (handler : error -> M A) (cleanup : M unit) : M A :=
  fun w =>
    let '(r, w1) :=
      match body w with
      | (Normal a, w') => (Normal a, w')
      | (Throw e, w') => handler e w'
      end in
    match cleanup w1 with
    | (Normal _, w2) => (r, w2)
    | (Throw e, w2) => (Throw e, w2)
    end.

(** [for (const x of xs) { await body(x) }]. *)
Fixpoint for_of {A} (xs : list A) (body : A -> M unit) : M unit :=
  match xs with
  | [] => ret tt
  | x :: r => mbind (body x) (fun _ => for_of r body)
  end.

Definition log (ev : event) (w : world) : world :=
  {| committed := committed w; session := session w; checked_out := checked_out w;
     trace := trace w ++ [ev]; faults := faults w |}.

Definition fault_now (w : world) : option error := faults w (List.length (trace w)).

(** The data a statement on the client connection sees. *)
Definition visible (w : world) : database :=
  match session w with
  | Some db => db
  | None => committed w
  end.

Inductive client : Type := Client.

(** [pool.connect()]. *)
Definition pool_connect : M client :=
  fun w =>
    match fault_now w with
    | Some e => (Throw e, log (Connect false) w)
    | None =>
        (Normal Client,
         {| committed := committed w; session := session w;
            checked_out := S (checked_out w);
            trace := trace w ++ [Connect true]; faults := faults w |})
    end.

(** [client.release()]. *)
Definition release (c : client) : M unit :=
  fun w =>
    (Normal tt,
     {| committed := committed w; session := session w;
        checked_out := Nat.pred (checked_out w);
        trace := trace w ++ [Release]; faults := faults w |}).

(** The state of the client connection after a statement that succeeded and
    left [db] behind: BEGIN opens a working copy, COMMIT publishes it,
    ROLLBACK throws it away, and any other statement changes the working copy
    or, outside a transaction, the committed data. *)
Definition settle (st : statement) (db : database) (w : world) : world :=
  match st with
  | BEGIN =>
      {| committed := committed w; session := Some db; checked_out := checked_out w;
         trace := trace w; faults := faults w |}
  | COMMIT =>
      {| committed := db; session := None; checked_out := checked_out w;
         trace := trace w; faults := faults w |}
  | ROLLBACK =>
      {| committed := committed w; session := None; checked_out := checked_out w;
         trace := trace w; faults := faults w |}
  | _ =>
      match session w with
      | Some _ =>
          {| committed := committed w; session := Some db; checked_out := checked_out w;
             trace := trace w; faults := faults w |}
      | None =>
          {| committed := db; session := session w; checked_out := checked_out w;
             trace := trace w; faults := faults w |}
      end
  end.

(** [client.query(text, params)]. *)
Definition client_query (c : client) (st : statement) : M (result (row_of st)) :=
  fun w =>
    let w1 := log (Query true st) w in
    match fault_now w with
    | Some e => (Throw e, w1)
    | None =>
        match run st (visible w) with
        | Throw e => (Throw e, w1)
        | Normal (db, r) => (Normal r, settle st db w1)
        end
    end.

(** Modelled from the spec: the [query] helper of config/db, which is not
    among the sources: one statement on a pooled connection of its own, outside
    any transaction, so it sees and changes the committed data. *)
Definition query (st : statement) : M (result (row_of st)) :=
  fun w =>
    let w1 := log (Query false st) w in
    match fault_now w with
    | Some e => (Throw e, w1)
    | None =>
        match run st (committed w) with
        | Throw e => (Throw e, w1)
        | Normal (db, r) =>
            (Normal r,
             {| committed := db; session := session w1; checked_out := checked_out w1;
                trace := trace w1; faults := faults w1 |})
        end
    end.

(** *** Worlds reached by the driver calls *)

(** The world after [pool.connect()] gave a client. *)
Definition acquired (w : world) : world :=
  {| committed := committed w; session := session w;
     checked_out := S (checked_out w);
     trace := trace w ++ [Connect true]; faults := faults w |}.

(** The world after a statement [ev] on the client that left [db] in the open
    transaction. *)
Definition in_session (db : database) (ev : event) (w : world) : world :=
  {| committed := committed w; session := Some db; checked_out := checked_out w;
     trace := trace w ++ [ev]; faults := faults w |}.

(** The world after ROLLBACK on the client. *)
Definition rolled_back (w : world) : world :=
  {| committed := committed w; session := None; checked_out := checked_out w;
     trace := trace w ++ [Query true ROLLBACK]; faults := faults w |}.

(** The world after the attempt of a workflow to roll back: the transaction
    is gone when the ROLLBACK went through, and is left as it was when the
    call failed. *)
Definition after_rollback (w : world) : world :=
  match fault_now w with
  | Some _ => log (Query true ROLLBACK) w
  | None => rolled_back w
  end.

(** The error that leaves a [catch] block that sends ROLLBACK and rethrows
    [e]: [e], unless the ROLLBACK fails, and then the error of the
    ROLLBACK. *)
Definition rethrown (e : error) (w : world) : error :=
  match fault_now w with
  | Some e' => e'
  | None => e
  end.

(** The world after [client.release()]. *)
Definition released (w : world) : world :=
  {| committed := committed w; session := session w;
     checked_out := Nat.pred (checked_out w);
     trace := trace w ++ [Release]; faults := faults w |}.

(** ** models/OrderModel *)

Definition insertOrder (c : client) (orderData : order_data) : M (result unit) :=
  client_query c
    (InsertOrder (orderId orderData) (value orderData) (creationDate orderData)).

Definition insertOrderItem (c : client) (orderId : string) (item : item_data)
  : M (result unit) :=
  client_query c (InsertItem orderId (productId item) (quantity item) (price item)).

Definition findOrderById (orderId : string) : M (result order_row) :=
  query (SelectOrderById orderId).

Definition findItemsByOrderId (orderId : string) : M (result item_row) :=
  query (SelectItemsByOrderId orderId).

Definition updateOrderHeader (c : client) (orderId : string) (orderData : order_data)
  : M (result string) :=
  client_query c (UpdateOrder (value orderData) (creationDate orderData) orderId).

(** The [itemData] object built by [updateItemOrder]. *)
Record item_update : Type := {
  upd_quantity : jsval;
  upd_price : jsval;
}.

Definition updateOrderItem (c : client) (orderId : string) (productId : float)
    (itemData : item_update) : M (result unit) :=
  client_query c (UpdateItem (upd_quantity itemData) (upd_price itemData) orderId productId).

Definition deleteOrderItems (c : client) (orderId : string) : M (result unit) :=
  client_query c (DeleteItems orderId).

Definition deleteOrderHeader (orderId : string) : M (result unit) :=
  query (DeleteOrder orderId).

(** ** services/OrderService *)

(** The top-level bindings of services/OrderService.js: its two [require]s
    ([OrderModel], [mapToDatabaseFormat]) and its own constants. The file has
    no [require] of the exception class and no declaration of that name. *)
Definition module_scope : list string :=
  ["OrderModel"; "mapToDatabaseFormat"; "formatOrderResponse"; "createOrder";
   "getOrderDetails"; "listAllOrders"; "updateOrder"; "updateItemOrder"; "deleteOrder"].

(** [throw new ResourceNotFoundException(resourceName, identifier)] as the
    service module evaluates it. *)
Definition throw_new_ResourceNotFoundException {A}
    (resourceName identifier : string) : M A :=
  match new_ResourceNotFoundException module_scope resourceName identifier with
  | Normal e => throw e
  | Throw e => throw e
  end.

(** What [createOrder] returns. *)
Record created : Type := {
  created_orderId : string;
  data : order_data;
}.

Definition invalid_item_message : string :=
  "Dados de atualização do item inválidos: 'quantidadeItem' ou 'valorItem' são obrigatórios.".

Section Service.

Context (host : Host).

(** [parseFloat(x)]: the host's parse of the text of [x]. *)
Definition parseFloat (x : jsval) : float := parseFloat_string host (ToString host x).

(** The arrow function mapped over the item rows. *)
Definition item_response (item : item_row) : jsval :=
  VObj [("productId", VNum (number_of_Z (productid item)));
        ("quantity", row_quantity item);
        ("price", VNum (parseFloat (row_price item)))].

Definition formatOrderResponse (orderRow : order_row) (itemRows : list item_row)
  : completion jsval :=
  (creationDate <- toISOString (Some (creationdate orderRow)) ;;
   Normal
     (VObj
        [("orderId", VStr (orderid orderRow));
         ("value", VNum (parseFloat (row_value orderRow)));
         ("creationDate", VStr creationDate);
         ("items", VArr (map item_response itemRows))]))%completion.

Local Open Scope M_scope.

Definition createOrder (inputBody : jsval) : M created :=
  mappedData <- lift (mapToDatabaseFormat host inputBody) ;;
  client <- pool_connect ;;
  try_catch_finally
    (client_query client BEGIN ;;;
     insertOrder client mappedData ;;;
     for_of (items mappedData)
       (fun item => insertOrderItem client (orderId mappedData) item ;;; ret tt) ;;;
     client_query client COMMIT ;;;
     ret {| created_orderId := orderId mappedData; data := mappedData |})
    (fun error => client_query client ROLLBACK ;;; throw error)
    (release client).

(** In the three functions below [rows.length === 0] and [rows[0]] are the
    two cases of a match on [rows]. *)
Definition getOrderDetails (orderId : string) : M jsval :=
  orderResult <- findOrderById orderId ;;
  match rows orderResult with
  | [] => throw_new_ResourceNotFoundException "Pedido" orderId
  | orderRow :: _ =>
      itemsResult <- findItemsByOrderId orderId ;;
      lift (formatOrderResponse orderRow (rows itemsResult))
  end.

Definition updateOrder (orderId : string) (inputBody : jsval) : M bool :=
  mappedData <- lift (mapToDatabaseFormat host inputBody) ;;
  client <- pool_connect ;;
  try_catch_finally
    (client_query client BEGIN ;;;
     order <- findOrderById orderId ;;
     match rows order with
     | [] => throw_new_ResourceNotFoundException "Pedido" orderId
     | _ :: _ =>
         updateOrderHeader client orderId mappedData ;;;
         client_query client COMMIT ;;;
         ret true
     end)
    (fun error => client_query client ROLLBACK ;;; throw error)
    (release client).

Definition updateItemOrder (orderId : string) (productId : float) (inputItemBody : jsval)
  : M bool :=
  quantidadeItem <- lift (get inputItemBody "quantidadeItem") ;;
  quantity <- lift (get inputItemBody "quantity") ;;
  valorItem <- lift (get inputItemBody "valorItem") ;;
  price <- lift (get inputItemBody "price") ;;
  let itemData := {| upd_quantity := js_or quantidadeItem quantity;
                     upd_price := js_or valorItem price |} in
  if is_undefined (upd_quantity itemData) || is_undefined (upd_price itemData) then
    throw (PlainError invalid_item_message)
  else
    orderResult <- findOrderById orderId ;;
    match rows orderResult with
    | [] => throw_new_ResourceNotFoundException "Pedido" orderId
    | _ :: _ =>
        client <- pool_connect ;;
        try_catch_finally
          (client_query client BEGIN ;;;
           updateResult <- updateOrderItem client orderId productId itemData ;;
           if Nat.eqb (rowCount updateResult) 0 then
             throw_new_ResourceNotFoundException
               ("Item " ++ Number_toString host productId ++ " no Pedido") orderId
           else
             client_query client COMMIT ;;;
             ret (Nat.ltb 0 (rowCount updateResult)))
          (fun error => client_query client ROLLBACK ;;; throw error)
          (release client)
    end.

Definition deleteOrder (orderId : string) : M unit :=
  result <- deleteOrderHeader orderId ;;
  if Nat.eqb (rowCount result) 0 then throw_new_ResourceNotFoundException "Pedido" orderId
  else ret tt.

End Service.

(** ** Concrete inputs *)

(** A host for running the program on the concrete inputs below: it takes no
    text outside the date-time format for a date, and its two number
    conversions have no effect on the outcomes stated for those inputs. *)
Definition sample_host : Host :=
  {| Number_toString := fun _ => "";
     parseFloat_string := fun _ => NaN;
     Date_parse_fallback := fun _ => None |}.

Definition empty_world : world :=
  {| committed := {| Orders := []; Items := [] |};
     session := None;
     checked_out := 0;
     trace := [];
     faults := fun _ => None |}.

(** The example payload of the specification. *)
Definition example_order : jsval :=
  VObj [("numeroPedido", VStr "1001-01");
        ("dataCriacao", VStr "2024-01-01T00:00:00+00:00");
        ("valorTotal", VNum 99.5);
        ("items", VArr [VObj [("idItem", VStr "7");
                              ("quantidadeItem", VNum 2);
                              ("valorItem", VNum 10.0)]])].

(** The store after the example order was created: one header, one item. *)
Definition example_db : database :=
  {| Orders := [{| orderid := "1001"; row_value := VNum 99.5;
                   creationdate := 1704067200000 |}];
     Items := [{| item_orderid := "1001"; productid := 7;
                  row_quantity := VNum 2; row_price := VNum 10 |}] |}.

Definition example_world : world :=
  {| committed := example_db;
     session := None;
     checked_out := 0;
     trace := [];
     faults := fun _ => None |}.

(** An item update under the second spelling of the two fields. *)
Definition new_quantity_and_price : jsval :=
  VObj [("quantity", VNum 3); ("price", VNum 5)].

Definition example_world_item_updated : world :=
  {| committed :=
       {| Orders := Orders example_db;
          Items := [{| item_orderid := "1001"; productid := 7;
                       row_quantity := VNum 3; row_price := VNum 5 |}] |};
     session := None;
     checked_out := 0;
     trace := [Query false (SelectOrderById "1001"); Connect true; Query true BEGIN;
               Query true (UpdateItem (VNum 3) (VNum 5) "1001" 7);
               Query true COMMIT; Release];
     faults := fun _ => None |}.

(** A property of an item element that is not [undefined] or [null]. *)
Definition field (item : jsval) (k : string) : jsval :=
  match item with
  | VObj props => lookup k props
  | _ => VUndef
  end.

Definition nullish (v : jsval) : bool :=
  match v with VUndef | VNull => true | _ => false end.

(** The mapped item of an element that is not [undefined] or [null]. *)
Definition transformed (host : Host) (item : jsval) : item_data :=
  {| productId := parseInt10 host (field item "idItem");
     quantity := field item "quantidadeItem";
     price := field item "valorItem" |}.

(** A payload whose item id is not a number. *)
Definition order_with_bad_item_id : jsval :=
  VObj [("numeroPedido", VStr "1001-01");
        ("dataCriacao", VStr "2024-01-01T00:00:00+00:00");
        ("valorTotal", VNum 99.5);
        ("items", VArr [VObj [("idItem", VStr "abc");
                              ("quantidadeItem", VNum 2);
                              ("valorItem", VNum 10.0)]])].

(** A payload whose date is not a date. *)
Definition order_with_bad_date : list (string * jsval) :=
  [("numeroPedido", VStr "1001-01");
   ("dataCriacao", VStr "not a date");
   ("valorTotal", VNum 99.5);
   ("items", VArr [])].

(** A payload without [numeroPedido]. *)
Definition order_without_number : list (string * jsval) :=
  [("dataCriacao", VStr "2024-01-01T00:00:00+00:00");
   ("valorTotal", VNum 99.5);
   ("items", VArr [])].

(** ** What a workflow leaves in the trace *)

Definition is_query (ev : event) : bool :=
  match ev with Query _ _ => true | _ => false end.

Definition is_acquire (ev : event) : bool :=
  match ev with Connect true => true | _ => false end.

Definition is_release (ev : event) : bool :=
  match ev with Release => true | _ => false end.

Definition ends_with (evs tail : list event) : Prop :=
  exists pre, evs = (pre ++ tail)%list.

(** A computation that only sends statements: it neither acquires nor
    releases a connection. *)
Definition quiet {A : Type} (m : M A) : Prop :=
  forall w,
  exists evs,
    trace (snd (m w)) = (trace w ++ evs)%list /\
    forallb is_query evs = true /\
    checked_out (snd (m w)) = checked_out w.

(** A workflow that does not leak: it leaves as many connections checked out
    as it found, it released as often as it acquired, and if it acquired a
    connection then its last act was the release, preceded by ROLLBACK
    whenever it ends by throwing. *)
Definition guarded {A : Type} (op : M A) : Prop :=
  forall w,
  exists evs,
    trace (snd (op w)) = (trace w ++ evs)%list /\
    checked_out (snd (op w)) = checked_out w /\
    List.length (filter is_release evs) = List.length (filter is_acquire evs) /\
    (existsb is_acquire evs = true ->
     ends_with evs [Release] /\
     (forall e, fst (op w) = Throw e -> ends_with evs [Query true ROLLBACK; Release])).

(** ** What [createOrder] leaves in the store *)

(** The header row that an order leaves behind. *)
Definition stored_order (m : order_data) (r : order_row) : Prop :=
  orderid r = orderId m /\
  row_value r = prepareValue (value m) /\
  timestamp_in (creationDate m) = Normal (creationdate r).

(** The item row that an item of the order [id] leaves behind. *)
Definition stored_item (id : string) (it : item_data) (r : item_row) : Prop :=
  item_orderid r = id /\
  int4_in (productId it) = Normal (productid r) /\
  row_quantity r = prepareValue (quantity it) /\
  row_price r = prepareValue (price it).

Definition insert_item_statement (id : string) (it : item_data) : statement :=
  InsertItem id (productId it) (quantity it) (price it).

Definition insert_order_statement (m : order_data) : statement :=
  InsertOrder (orderId m) (value m) (creationDate m).

(** The insert statements of an order, in the order they are sent. *)
Definition insert_statements (m : order_data) : list statement :=
  insert_order_statement m :: map (insert_item_statement (orderId m)) (items m).

(** The statements of the transaction of [createOrder], in the order they
    are sent. *)
Definition workflow_statements (m : order_data) : list statement :=
  BEGIN :: (insert_statements m ++ [COMMIT])%list.

(** The first failure when the statements [sts] are sent one after the other
    on a connection that sees [db], the first of them being call number [k]
    of the world: the number of statements that went through before it and
    its error, which is that of the oracle for this call or else that of the
    store for this statement on the data left by the statements before it. When
    no statement fails, the data they leave. *)
Fixpoint first_failure (oracle : nat -> option error) (k : nat) (db : database)
    (sts : list statement) : (nat * error) + database :=
  match sts with
  | [] => inr db
  | st :: rest =>
      match oracle k with
      | Some e => inl (O, e)
      | None =>
          match run st db with
          | Throw e => inl (O, e)
          | Normal (db', _) =>
              match first_failure oracle (S k) db' rest with
              | inl (n, e) => inl (S n, e)
              | inr d => inr d
              end
          end
      end
  end.

(** A world in which the connection is lost after it was acquired: BEGIN
    (call 1) fails, and so does the ROLLBACK sent after it (call 2). *)
Definition connection_lost : world :=
  {| committed := {| Orders := []; Items := [] |};
     session := None;
     checked_out := 0;
     trace := [];
     faults := fun k =>
       match k with
       | 1%nat => Some (PlainError "Connection terminated unexpectedly")
       | 2%nat =>
           Some (PlainError
                   "Client has encountered a connection error and is not queryable")
       | _ => None
       end |}.

(** ** The shape of an ISO-8601 timestamp *)

Definition is_digit (c : ascii) : bool :=
  match digit_of c with Some _ => true | None => false end.

(** Strip [n] decimal digits from the head of a string. *)
Fixpoint strip_digits (n : nat) (s : option string) : option string :=
  match n, s with
  | O, _ => s
  | S k, Some (String c r) => if is_digit c then strip_digits k (Some r) else None
  | S _, _ => None
  end.

(** Strip the character [c] from the head of a string. *)
Definition strip_char (c : ascii) (s : option string) : option string :=
  match s with
  | Some (String c' r) => if Ascii.eqb c' c then Some r else None
  | _ => None
  end.

(** [YYYY-MM-DDTHH:mm:ss.sssZ], the year of four digits or of six with a
    sign. *)
Definition is_iso8601 (s : string) : bool :=
  let year :=
    match s with
    | String c r =>
        if Ascii.eqb c "+" || Ascii.eqb c "-" then strip_digits 6 (Some r)
        else strip_digits 4 (Some s)
    | EmptyString => None
    end in
  match
    strip_char "Z" (strip_digits 3 (strip_char "."
      (strip_digits 2 (strip_char ":" (strip_digits 2 (strip_char ":"
        (strip_digits 2 (strip_char "T" (strip_digits 2 (strip_char "-"
          (strip_digits 2 (strip_char "-" year))))))))))))
  with
  | Some EmptyString => true
  | _ => false
  end.

(** ** Listing: [findAllOrders] and [listAllOrders] *)

(** ORDER BY creationDate DESC. Rows of equal date come in table order here;
    the server promises no order among them, and nothing below depends on
    it. *)
Fixpoint insert_desc (r : order_row) (l : list order_row) : list order_row :=
  match l with
  | [] => [r]
  | x :: t =>
      if creationdate x <=? creationdate r then r :: l else x :: insert_desc r t
  end.

Fixpoint order_by_creationDate_desc (l : list order_row) : list order_row :=
  match l with
  | [] => []
  | r :: t => insert_desc r (order_by_creationDate_desc t)
  end.

(** SELECT orderId, value, creationDate FROM Orders ORDER BY creationDate
    DESC, through the [query] helper: the committed data, or the failure the
    oracle has for this call. The call is not entered in the trace, which
    records the statements of the lookup and write paths. *)
Definition findAllOrders : M (result order_row) :=
  fun w =>
    match fault_now w with
    | Some e => (Throw e, w)
    | None =>
        let found := order_by_creationDate_desc (Orders (committed w)) in
        (Normal {| rows := found; rowCount := List.length found |}, w)
    end.

Module OrderService.

Section Listing.

Context (host : Host).

(** The arrow function mapped over the header rows. *)
Definition order_summary (order : order_row) : completion jsval :=
  (creationDate <- toISOString (Some (creationdate order)) ;;
   Normal (VObj [("orderId", VStr (orderid order));
                 ("value", VNum (parseFloat host (row_value order)));
                 ("creationDate", VStr creationDate)]))%completion.

Definition listAllOrders : M jsval :=
  (result <- findAllOrders ;;
   summaries <- lift (cmap order_summary (rows result)) ;;
   ret (VArr summaries))%M.

End Listing.

End OrderService.

(** ** controller/OrderController *)

(** [error.message] and [error.code]; only the errors of the driver carry a
    code. *)
Definition error_message (e : error) : string :=
  match e with
  | TypeError m | RangeError m | ReferenceError m | PlainError m => m
  | NotFoundError m _ => m
  | DatabaseError _ m => m
  end.

Definition error_code (e : error) : jsval :=
  match e with
  | DatabaseError c _ => VStr c
  | _ => VUndef
  end.

(** [error.statusCode]; only the Not-Found error has one. *)
Definition error_statusCode (e : error) : option Z :=
  match e with
  | NotFoundError _ s => Some s
  | _ => None
  end.

Fixpoint starts_with (needle hay : string) : bool :=
  match needle, hay with
  | EmptyString, _ => true
  | String a n, String b h => Ascii.eqb a b && starts_with n h
  | String _ _, EmptyString => false
  end.

(** [hay.includes(needle)]. *)
Fixpoint includes (needle hay : string) : bool :=
  starts_with needle hay
  || match hay with
     | EmptyString => false
     | String _ h => includes needle h
     end.

(** The mapped order as the JSON object it is sent as. *)
Definition item_json (it : item_data) : jsval :=
  VObj [("productId", VNum (productId it));
        ("quantity", quantity it);
        ("price", price it)].

Definition order_json (m : order_data) : jsval :=
  VObj [("orderId", VStr (orderId m));
        ("value", value m);
        ("creationDate", VStr (creationDate m));
        ("items", VArr (map item_json (items m)))].

(** What a handler sends: [res.status(s).json(b)], or [res.status(s).send()]
    with no body. *)
Record response : Type := {
  status : Z;
  body : option jsval;
}.

(** [try { body } catch (error) { handler }]. *)
Definition try_catch {A} (body : M A) (handler : error -> M A) : M A :=
  fun w =>
    match body w with
    | (Normal a, w') => (Normal a, w')
    | (Throw e, w') => handler e w'
    end.

Module OrderController.

Definition PG_DUPLICATE_KEY_CODE : string := "23505".

(** The top-level bindings of the controller file: its one [require]
    ([OrderService]), the constant and the six handlers. It has no [require]
    of the exception class either. *)
Definition module_scope : list string :=
  ["OrderService"; "PG_DUPLICATE_KEY_CODE"; "createNewOrder"; "getOrder";
   "listAllOrders"; "updateExistingOrder"; "updateOrderItem"; "deleteExistingOrder"].

(** [error instanceof ResourceNotFoundException] in a module whose bindings
    are [scope]: the right operand is an identifier, and resolving an unbound
    one throws a ReferenceError. *)
Definition instanceof_ResourceNotFoundException (scope : list string) (e : error)
  : completion bool :=
  if existsb (String.eqb "ResourceNotFoundException") scope
  then Normal (match e with NotFoundError _ _ => true | _ => false end)
  else Throw (ReferenceError "ResourceNotFoundException is not defined").

(** [OrderService.name(...)] for a name that is not among the exports of the
    service module ([createOrder], [getOrderDetails], [listAllOrders],
    [updateOrder], [deleteOrder], [updateItemOrder]): the property is
    [undefined] and calling it throws a TypeError. *)
Definition call_missing_export {A} (name : string) : M A :=
  throw (TypeError ("OrderService." ++ name ++ " is not a function")).

(** [a === b] when [b] is a string. *)
Definition strict_equal (a b : jsval) : bool :=
  match a, b with
  | VStr x, VStr y => String.eqb x y
  | _, _ => false
  end.

(** [error.message && error.message.includes('inválidos')]. *)
Definition says_invalid (e : error) : bool :=
  negb (String.eqb (error_message e) "") && includes "inválidos" (error_message e).

Definition json (s : Z) (b : list (string * jsval)) : M response :=
  ret {| status := s; body := Some (VObj b) |}.

Section Handlers.

Context (host : Host).

Local Open Scope M_scope.

(** [console.error] in the [catch] blocks writes to the standard error of the
    process, which is no part of the world, and is left out. *)
Definition createNewOrder (reqBody : jsval) : M response :=
  try_catch
    (result <- createOrder host reqBody ;;
     json 201 [("message", VStr "Pedido criado com sucesso.");
               ("orderId", VStr (created_orderId result));
               ("data", order_json (data result))])
    (fun error =>
       if strict_equal (error_code error) (VStr PG_DUPLICATE_KEY_CODE) then
         json 409 [("message", VStr "Erro: O número de pedido já existe.");
                   ("error", VStr (error_message error))]
       else if says_invalid error then
         json 400 [("message", VStr (error_message error))]
       else
         json 500 [("message", VStr "Erro interno do servidor ao criar o pedido.");
                   ("error", VStr (error_message error))]).

Definition getOrder (orderId : string) : M response :=
  try_catch
    (order <- getOrderDetails host orderId ;;
     if negb (truthy order) then
       json 404 [("message", VStr ("Pedido com orderId " ++ orderId ++ " não encontrado."))]
     else ret {| status := 200; body := Some order |})
    (fun error =>
       json 500 [("message", VStr "Erro interno do servidor ao buscar o pedido.");
                 ("error", VStr (error_message error))]).

Definition listAllOrders : M response :=
  try_catch
    (orders <- OrderService.listAllOrders host ;;
     ret {| status := 200; body := Some orders |})
    (fun error =>
       json 500 [("message", VStr "Erro interno do servidor ao listar os pedidos.");
                 ("error", VStr (error_message error))]).

Definition updateExistingOrder (orderId : string) (reqBody : jsval) : M response :=
  try_catch
    (call_missing_export (A := unit) "updateOrderHeaderOnly" ;;;
     json 200 [("message",
                VStr ("Cabeçalho do Pedido " ++ orderId ++ " atualizado com sucesso."))])
    (fun error =>
       notFound <- lift (instanceof_ResourceNotFoundException module_scope error) ;;
       if notFound then
         json (match error_statusCode error with Some s => s | None => 200 end)
              [("message", VStr (error_message error))]
       else if says_invalid error then
         json 400 [("message", VStr (error_message error))]
       else
         json 500 [("message", VStr "Erro interno do servidor ao atualizar o cabeçalho.");
                   ("error", VStr (error_message error))]).

(** [productId] is the route parameter, a string. *)
Definition updateOrderItem (orderId productId : string) (reqBody : jsval) : M response :=
  try_catch
    (let numericProductId := parseInt10 host (VStr productId) in
     if is_nan numericProductId then
       json 400 [("message", VStr "O ID do produto deve ser um número válido.")]
     else
       updateItemOrder host orderId numericProductId reqBody ;;;
       json 200 [("message",
                  VStr ("Item " ++ productId ++ " do Pedido " ++ orderId
                          ++ " atualizado com sucesso."))])
    (fun error =>
       notFound <- lift (instanceof_ResourceNotFoundException module_scope error) ;;
       if notFound then json 404 [("message", VStr (error_message error))]
       else if says_invalid error then
         json 400 [("message", VStr (error_message error))]
       else
         json 500 [("message", VStr "Erro interno do servidor ao atualizar o item.");
                   ("error", VStr (error_message error))]).

Definition deleteExistingOrder (orderId : string) : M response :=
  try_catch
    (deleteOrder orderId ;;;
     ret {| status := 204; body := None |})
    (fun error =>
       notFound <- lift (instanceof_ResourceNotFoundException module_scope error) ;;
       if notFound then json 404 [("message", VStr (error_message error))]
       else
         json 500 [("message", VStr "Erro interno do servidor ao deletar o pedido.");
                   ("error", VStr (error_message error))]).

End Handlers.

End OrderController.

(** ** The two exercise functions *)

(** The double nearest to an integer [z] of magnitude below 2^1024, ties to
    even: the integers up to 2^53 are doubles; above it the doubles are the
    multiples of [ulp], the power of two that leaves 53 bits. *)
Definition round_to_double (z : Z) : Z :=
  let a := Z.abs z in
  if a <=? 2 ^ 53 then z
  else
    let ulp := 2 ^ (Z.log2 a - 52) in
    let q := a / ulp in
    let r := a mod ulp in
    Z.sgn z * (if 2 * r <? ulp then q * ulp
               else if ulp <? 2 * r then (q + 1) * ulp
               else if Z.even q then q * ulp
               else (q + 1) * ulp).



(** A string of the language, as the list of its UTF-16 code units. *)
Definition code_unit : Type := N.

(** [s.charAt(i)]: the string of the one code unit at [i], empty when [i] is
    out of range. *)
Definition charAt (s : list code_unit) (i : nat) : list code_unit :=
  match nth_error s i with
  | Some c => [c]
  | None => []
  end.

(** [inverterPalavra(palavra)] for a string: the loop runs for [i] from
    [length - 1] down to 0, here counted by [count = i + 1]. *)
Fixpoint inverterPalavra_loop (count : nat) (palavra result : list code_unit)
  : list code_unit :=
  match count with
  | O => result
  | S i => inverterPalavra_loop i palavra (result ++ charAt palavra i)
  end.

Definition inverterPalavra (palavra : list code_unit) : list code_unit :=
  inverterPalavra_loop (List.length palavra) palavra [].

(** ** Words for the further properties *)

(** A header row comes before another when its date is not older. *)
Definition newer_first (a b : order_row) : Prop := creationdate b <= creationdate a.

(** The list entry of a header row. *)
Definition summary_of (host : Host) (order : order_row) : jsval :=
  VObj [("orderId", VStr (orderid order));
        ("value", VNum (parseFloat host (row_value order)));
        ("creationDate", VStr (iso_string (creationdate order)))].

(** The foreign key of [Items]: every item row belongs to an order of the
    store. *)
Definition referential (db : database) : Prop :=
  forall r, In r (Items db) -> has_order (item_orderid r) db = true.

(** * Properties *)

Unset Implicit Arguments.

(** ** The mapper on the example of the specification *)

(** C2: the example payload maps to orderId "1001" (the order number up to
    its first hyphen), creationDate "2024-01-01T00:00:00.000Z", value 99.5
    passed through, and the single item {productId: 7, quantity: 2,
    price: 10}, whatever the host. *)
Theorem mapToDatabaseFormat_example :
  forall host : Host,
    mapToDatabaseFormat host example_order =
    Normal {| orderId := "1001";
              value := VNum 99.5;
              creationDate := "2024-01-01T00:00:00.000Z";
              items := [{| productId := 7; quantity := VNum 2; price := VNum 10 |}] |}.
Proof.
  intros host. vm_compute. reflexivity.
Qed.

(** ** The shape of a transactional block *)

Lemma client_query_ROLLBACK :
  forall c w,
    client_query c ROLLBACK w =
    (match fault_now w with Some e => Throw e | None => Normal no_rows end,
     after_rollback w).
Proof.
  intros c w. unfold client_query, after_rollback.
  destruct (fault_now w); reflexivity.
Qed.

(** try / catch (ROLLBACK, rethrow) / finally (release): a body that returns
    is followed by the release, and a body that throws by the attempt to roll
    back and the release. *)
Lemma transactional_block :
  forall (A : Type) (body : M A) (c : client) (w : world),
    try_catch_finally body
      (fun error => client_query c ROLLBACK ;;; throw error)%M
      (release c) w =
    match body w with
    | (Normal a, w1) => (Normal a, released w1)
    | (Throw e, w1) => (Throw (rethrown e w1), released (after_rollback w1))
    end.
Proof.
  intros A body c w. unfold try_catch_finally.
  destruct (body w) as [[a | e] w1]; [reflexivity |].
  unfold mbind. rewrite client_query_ROLLBACK. unfold rethrown.
  destruct (fault_now w1); reflexivity.
Qed.

Lemma after_rollback_trace :
  forall w, trace (after_rollback w) = (trace w ++ [Query true ROLLBACK])%list.
Proof.
  intros w. unfold after_rollback. destruct (fault_now w); reflexivity.
Qed.

Lemma after_rollback_committed :
  forall w, committed (after_rollback w) = committed w.
Proof.
  intros w. unfold after_rollback. destruct (fault_now w); reflexivity.
Qed.

Lemma after_rollback_checked_out :
  forall w, checked_out (after_rollback w) = checked_out w.
Proof.
  intros w. unfold after_rollback. destruct (fault_now w); reflexivity.
Qed.


Lemma mbind_Normal_inv :
  forall (A B : Type) (m : M A) (k : A -> M B) w b w',
    mbind m k w = (Normal b, w') ->
    exists a w1, m w = (Normal a, w1) /\ k a w1 = (Normal b, w').
Proof.
  intros A B m k w b w' H. unfold mbind in H.
  destruct (m w) as [[a | e] w1]; [eauto | discriminate].
Qed.

(** ** Validation in [updateItemOrder] *)

(** C3, at an input that supplies both fields: with
    {quantidadeItem: 2, valorItem: 0} the price is supplied, yet the [||]
    takes the zero for a missing value, the other spelling is undefined, and
    the validation error is thrown; the store is not touched. *)
Theorem updateItemOrder_rejects_zero_price :
  forall (host : Host) (orderId : string) (productId : float) (w : world),
    updateItemOrder host orderId productId
      (VObj [("quantidadeItem", VNum 2); ("valorItem", VNum 0)]) w =
    (Throw (PlainError invalid_item_message), w).
Proof.
  intros host id pid w. reflexivity.
Qed.

(** The same [||] makes a zero under the first spelling lose to the second
    spelling. *)
Lemma first_spelling_zero_loses :
  forall (host : Host) (orderId : string) (productId : float) (w : world),
    updateItemOrder host orderId productId
      (VObj [("quantidadeItem", VNum 0); ("quantity", VNum 5); ("valorItem", VNum 1)]) w =
    updateItemOrder host orderId productId
      (VObj [("quantity", VNum 5); ("valorItem", VNum 1)]) w.
Proof.
  intros host id pid w. reflexivity.
Qed.

(** Only [undefined] is refused: a [null] quantity passes the check, reaches
    the store and is written. *)
Lemma null_quantity_is_written :
  exists w',
    updateItemOrder sample_host "1001" 7
      (VObj [("quantity", VNull); ("price", VNum 5)]) example_world = (Normal true, w') /\
    Items (committed w') =
    [{| item_orderid := "1001"; productid := 7;
        row_quantity := VNull; row_price := VNum 5 |}].
Proof.
  eexists. split; vm_compute; reflexivity.
Qed.

(** ** The return value of [updateItemOrder] *)

(** C10: whenever [updateItemOrder] returns, it returns [true]: a statement
    that affected no row throws before the [return] is reached. *)
Theorem updateItemOrder_returns_true :
  forall (host : Host) (orderId : string) (productId : float) (inputItemBody : jsval)
         (w w' : world) (b : bool),
    updateItemOrder host orderId productId inputItemBody w = (Normal b, w') ->
    b = true.
Proof.
  intros host id pid body w w' b H.
  unfold updateItemOrder in H.
  repeat (apply mbind_Normal_inv in H; destruct H as (? & ? & _ & H)).
  destruct (_ || _); [discriminate |].
  apply mbind_Normal_inv in H. destruct H as (orderResult & w1 & _ & H).
  destruct (rows orderResult); [discriminate |].
  apply mbind_Normal_inv in H. destruct H as (c & w2 & _ & H).
  rewrite transactional_block in H.
  match type of H with
  | (match ?body with _ => _ end) = _ => destruct body as [[r | e] w3] eqn:Hbody
  end; [| discriminate].
  inversion H; subst; clear H.
  apply mbind_Normal_inv in Hbody. destruct Hbody as (? & ? & _ & Hbody).
  apply mbind_Normal_inv in Hbody. destruct Hbody as (updateResult & w4 & _ & Hbody).
  destruct (rowCount updateResult) as [| n] eqn:Hn; simpl in Hbody.
  - unfold throw_new_ResourceNotFoundException in Hbody. simpl in Hbody. discriminate.
  - apply mbind_Normal_inv in Hbody. destruct Hbody as (? & ? & _ & Hbody).
    inversion Hbody. reflexivity.
Qed.

Lemma updateItemOrder_returns_true_witness :
  updateItemOrder sample_host "1001" 7 new_quantity_and_price example_world
  = (Normal true, example_world_item_updated)
  /\ true = true.
Proof.
  split; [vm_compute; reflexivity |].
  apply (updateItemOrder_returns_true sample_host "1001" 7 new_quantity_and_price
           example_world example_world_item_updated true).
  vm_compute. reflexivity.
Defined.

(** ** The mapper: what fails and what passes *)

Lemma transformItem_defined :
  forall (host : Host) (item : jsval),
    nullish item = false ->
    transformItem host item = Normal (transformed host item).
Proof.
  intros host item H. destruct item; try discriminate; reflexivity.
Qed.

Lemma cmap_transformItem :
  forall (host : Host) (elems : list jsval),
    forallb (fun e => negb (nullish e)) elems = true ->
    cmap (transformItem host) elems = Normal (map (transformed host) elems).
Proof.
  intros host elems. induction elems as [| e r IH]; simpl; intros H.
  - reflexivity.
  - apply andb_prop in H. destruct H as [He Hr].
    rewrite transformItem_defined by (now destruct (nullish e)).
    rewrite IH by exact Hr. reflexivity.
Qed.

(** The mapper on a well-formed payload: every field is carried over as it
    is, absent ones as [undefined]. *)
Lemma mapToDatabaseFormat_success :
  forall (host : Host) (props : list (string * jsval)) np s t elems,
    lookup "numeroPedido" props = VStr np ->
    lookup "dataCriacao" props = VStr s ->
    Date_parse host s = Some t ->
    lookup "items" props = VArr elems ->
    forallb (fun e => negb (nullish e)) elems = true ->
    mapToDatabaseFormat host (VObj props) =
    Normal {| orderId := nth 0 (split "-" np) "";
              value := lookup "valorTotal" props;
              creationDate := iso_string t;
              items := map (transformed host) elems |}.
Proof.
  intros host props np s t elems Hnp Hs Ht Hitems Hall.
  unfold mapToDatabaseFormat. simpl.
  rewrite Hnp. simpl. rewrite Hs. simpl. rewrite Ht. simpl.
  rewrite Hitems. simpl. rewrite cmap_transformItem by exact Hall.
  reflexivity.
Qed.

(** C4, as the code has it: a date string that does not parse makes the
    mapper throw, and the error is the RangeError of [toISOString] whenever
    the order number is a string; an item id that does not parse as an integer
    does not make it throw: the mapper returns, with the [productId] that
    [parseInt] gave (NaN). The mapper is a function of its argument and of
    nothing else. *)
Theorem mapToDatabaseFormat_parse_failures :
  forall host : Host,
    (forall props s,
        lookup "dataCriacao" props = VStr s ->
        Date_parse host s = None ->
        exists e,
          mapToDatabaseFormat host (VObj props) = Throw e /\
          (forall np, lookup "numeroPedido" props = VStr np ->
                      e = RangeError "Invalid time value")) /\
    (forall props np s t elems,
        lookup "numeroPedido" props = VStr np ->
        lookup "dataCriacao" props = VStr s ->
        Date_parse host s = Some t ->
        lookup "items" props = VArr elems ->
        forallb (fun e => negb (nullish e)) elems = true ->
        exists r,
          mapToDatabaseFormat host (VObj props) = Normal r /\
          map productId (items r) =
          map (fun e => parseInt10 host (field e "idItem")) elems).
Proof.
  intros host. split.
  - intros props s Hs Hnone.
    unfold mapToDatabaseFormat. simpl.
    destruct (call_split (lookup "numeroPedido" props) "-") as [parts | e] eqn:Hsplit.
    + simpl. rewrite Hs. simpl. rewrite Hnone. simpl.
      eexists. split; [reflexivity | reflexivity].
    + simpl. exists e. split; [reflexivity |].
      intros np Hnp. rewrite Hnp in Hsplit. discriminate.
  - intros props np s t elems Hnp Hs Ht Hitems Hall.
    eexists. split.
    + eapply mapToDatabaseFormat_success; eassumption.
    + simpl. rewrite map_map. reflexivity.
Qed.

Lemma mapToDatabaseFormat_parse_failures_witness :
  mapToDatabaseFormat sample_host (VObj order_with_bad_date)
  = Throw (RangeError "Invalid time value").
Proof.
  destruct (proj1 (mapToDatabaseFormat_parse_failures sample_host)
              order_with_bad_date "not a date" eq_refl eq_refl) as (e & He & Hrange).
  rewrite He. f_equal. exact (Hrange "1001-01" eq_refl).
Defined.

(** C4 fails as stated: an item id that is not integer-parsable ("abc", for
    which [parseInt] gives NaN) does not make the mapper fail. *)
Lemma mapToDatabaseFormat_bad_item_id_returns :
  is_nan (parseInt10 sample_host (VStr "abc")) = true /\
  mapToDatabaseFormat sample_host order_with_bad_item_id =
  Normal {| orderId := "1001";
            value := VNum 99.5;
            creationDate := "2024-01-01T00:00:00.000Z";
            items := [{| productId := NaN; quantity := VNum 2; price := VNum 10 |}] |}.
Proof.
  split; vm_compute; reflexivity.
Qed.

(** C8, as the code has it: the mapper substitutes no default. An absent
    valorTotal, quantidadeItem or valorItem is carried into the mapped order
    as [undefined] and bound as such by the insert statements; an absent
    idItem becomes the [productId] NaN; but an absent numeroPedido,
    dataCriacao or items makes the mapper itself throw (TypeError, RangeError,
    TypeError). *)
Theorem mapToDatabaseFormat_missing_fields :
  forall (host : Host) (props : list (string * jsval)),
    (lookup "numeroPedido" props = VUndef ->
     mapToDatabaseFormat host (VObj props) =
     Throw (TypeError "Cannot read properties of undefined (reading 'split')")) /\
    (forall np,
        lookup "numeroPedido" props = VStr np ->
        lookup "dataCriacao" props = VUndef ->
        mapToDatabaseFormat host (VObj props) = Throw (RangeError "Invalid time value")) /\
    (forall np s t,
        lookup "numeroPedido" props = VStr np ->
        lookup "dataCriacao" props = VStr s ->
        Date_parse host s = Some t ->
        lookup "items" props = VUndef ->
        mapToDatabaseFormat host (VObj props) =
        Throw (TypeError "Cannot read properties of undefined (reading 'map')")) /\
    (forall np s t elems,
        lookup "numeroPedido" props = VStr np ->
        lookup "dataCriacao" props = VStr s ->
        Date_parse host s = Some t ->
        lookup "items" props = VArr elems ->
        forallb (fun e => negb (nullish e)) elems = true ->
        exists r,
          mapToDatabaseFormat host (VObj props) = Normal r /\
          items r = map (transformed host) elems /\
          (lookup "valorTotal" props = VUndef ->
           value r = VUndef /\
           insertOrder Client r =
           client_query Client (InsertOrder (orderId r) VUndef (creationDate r)))) /\
    (forall (item : list (string * jsval)) (orderId : string),
        (lookup "idItem" item = VUndef ->
         is_nan (productId (transformed host (VObj item))) = true) /\
        (lookup "quantidadeItem" item = VUndef ->
         lookup "valorItem" item = VUndef ->
         insertOrderItem Client orderId (transformed host (VObj item)) =
         client_query Client
           (InsertItem orderId (productId (transformed host (VObj item))) VUndef VUndef))).
Proof.
  intros host props. split; [| split; [| split; [| split]]].
  - intros H. unfold mapToDatabaseFormat. simpl. rewrite H. reflexivity.
  - intros np Hnp H. unfold mapToDatabaseFormat. simpl.
    rewrite Hnp. simpl. rewrite H. reflexivity.
  - intros np s t Hnp Hs Ht H. unfold mapToDatabaseFormat. simpl.
    rewrite Hnp. simpl. rewrite Hs. simpl. rewrite Ht. simpl. rewrite H. reflexivity.
  - intros np s t elems Hnp Hs Ht Hitems Hall.
    eexists. split; [eapply mapToDatabaseFormat_success; eassumption |].
    split; [reflexivity |].
    intros Hv. unfold insertOrder. simpl. rewrite Hv. split; reflexivity.
  - intros item id. split.
    + intros H. simpl. rewrite H. reflexivity.
    + intros Hq Hp. unfold insertOrderItem. simpl. rewrite Hq, Hp. reflexivity.
Qed.

Lemma mapToDatabaseFormat_missing_fields_witness :
  mapToDatabaseFormat sample_host (VObj order_without_number) =
  Throw (TypeError "Cannot read properties of undefined (reading 'split')").
Proof.
  exact (proj1 (mapToDatabaseFormat_missing_fields sample_host order_without_number)
           eq_refl).
Defined.

(** C8 fails as stated: with numeroPedido absent it is the mapper itself that
    throws, before any downstream call is made. *)
Lemma mapToDatabaseFormat_without_number_throws :
  lookup "numeroPedido" order_without_number = VUndef /\
  mapToDatabaseFormat sample_host (VObj order_without_number) =
  Throw (TypeError "Cannot read properties of undefined (reading 'split')") /\
  createOrder sample_host (VObj order_without_number) empty_world =
  (Throw (TypeError "Cannot read properties of undefined (reading 'split')"), empty_world).
Proof.
  repeat split.
Qed.

(** ** The identifier the service module does not bind *)

Lemma ResourceNotFoundException_unbound :
  forall resourceName identifier : string,
    new_ResourceNotFoundException module_scope resourceName identifier =
    Throw (ReferenceError "ResourceNotFoundException is not defined").
Proof. reflexivity. Qed.

(** With the class in scope the same expression builds the Not-Found error. *)
Lemma ResourceNotFoundException_bound :
  forall resourceName identifier : string,
    new_ResourceNotFoundException ("ResourceNotFoundException" :: module_scope)
      resourceName identifier =
    Normal (NotFoundError
              (resourceName ++ " com identificador " ++ quote ++ identifier ++ quote
                 ++ " não foi encontrado.") 404).
Proof. reflexivity. Qed.

(** ** Lookups that find nothing *)

Lemma filter_none :
  forall (A : Type) (f : A -> bool) (l : list A),
    existsb f l = false -> filter f l = [].
Proof.
  intros A f l. induction l as [| a r IH]; simpl; [reflexivity |].
  destruct (f a); simpl; [discriminate | exact IH].
Qed.

Lemma filter_all :
  forall (A : Type) (f : A -> bool) (l : list A),
    existsb f l = false -> filter (fun a => negb (f a)) l = l.
Proof.
  intros A f l. induction l as [| a r IH]; simpl; [reflexivity |].
  destruct (f a); simpl; [discriminate |].
  intros H. rewrite IH by exact H. reflexivity.
Qed.

Lemma filter_some :
  forall (A : Type) (f : A -> bool) (l : list A),
    existsb f l = true -> exists a r, filter f l = a :: r.
Proof.
  intros A f l. induction l as [| a r IH]; simpl; [discriminate |].
  destruct (f a); simpl; [eauto | exact IH].
Qed.

(** ** [toISOString] writes ISO-8601 *)

Lemma digit_char_cases :
  forall d : Z,
    In (digit_char d)
       ["0"; "1"; "2"; "3"; "4"; "5"; "6"; "7"; "8"; "9"]%char.
Proof.
  intros d. unfold digit_char.
  assert (H : 0 <= d mod 10 < 10) by (apply Z.mod_pos_bound; lia).
  assert (Hc : d mod 10 = 0 \/ d mod 10 = 1 \/ d mod 10 = 2 \/ d mod 10 = 3 \/
               d mod 10 = 4 \/ d mod 10 = 5 \/ d mod 10 = 6 \/ d mod 10 = 7 \/
               d mod 10 = 8 \/ d mod 10 = 9) by lia.
  repeat (destruct Hc as [Hc | Hc]; [rewrite Hc; simpl; tauto |]).
  rewrite Hc. simpl. tauto.
Qed.

Lemma digit_char_is_digit :
  forall d : Z,
    is_digit (digit_char d) = true /\
    Ascii.eqb (digit_char d) "+" = false /\
    Ascii.eqb (digit_char d) "-" = false.
Proof.
  intros d. pose proof (digit_char_cases d) as H. simpl in H.
  repeat (destruct H as [H | H]; [rewrite <- H; repeat split; reflexivity |]).
  contradiction.
Qed.

Lemma strip_digit_char :
  forall (k : nat) (d : Z) (r : string),
    strip_digits (S k) (Some (String (digit_char d) r)) = strip_digits k (Some r).
Proof.
  intros k d r. simpl. destruct (digit_char_is_digit d) as (H & _). rewrite H.
  reflexivity.
Qed.

Lemma strip_char_same :
  forall (c : ascii) (r : string), strip_char c (Some (String c r)) = Some r.
Proof.
  intros c r. simpl. rewrite Ascii.eqb_refl. reflexivity.
Qed.

Lemma strip_no_digits : forall s, strip_digits 0 s = s.
Proof. reflexivity. Qed.

(** The text of every time value has the shape of an ISO-8601 timestamp. *)
Lemma iso_string_is_iso8601 : forall t : Z, is_iso8601 (iso_string t) = true.
Proof.
  intros t. unfold iso_string.
  destruct (civil_from_days (t / msPerDay)) as [[y m] d].
  unfold iso_year, is_iso8601.
  destruct ((0 <=? y) && (y <=? 9999)); [| destruct (y <? 0)];
    cbn [pad append].
  - destruct (digit_char_is_digit (y / 10 / 10 / 10)) as (_ & Hplus & Hminus).
    rewrite Hplus, Hminus. cbn [orb].
    repeat first [rewrite strip_digit_char | rewrite strip_char_same
                 | rewrite strip_no_digits].
    reflexivity.
  - cbn [Ascii.eqb Bool.eqb orb andb].
    repeat first [rewrite strip_digit_char | rewrite strip_char_same
                 | rewrite strip_no_digits].
    reflexivity.
  - cbn [Ascii.eqb Bool.eqb orb andb].
    repeat first [rewrite strip_digit_char | rewrite strip_char_same
                 | rewrite strip_no_digits].
    reflexivity.
Qed.

(** ** Reading an order *)

(** C5, as the code runs: when neither query fails, [getOrderDetails]
    answers an id that has a header row with that row's orderId, its value as
    a number, its creationDate as the ISO-8601 text of the date, and one
    {productId, quantity, price} object (price a number) for every item row
    of the order; for an id without a header row it throws, but what it
    throws is the ReferenceError for the identifier
    [ResourceNotFoundException], which the service module never binds, and
    not the Not-Found error. *)
Theorem getOrderDetails_behaviour :
  forall (host : Host) (orderId : string) (w : world),
    fault_now w = None ->
    faults w (S (List.length (trace w))) = None ->
    fst (getOrderDetails host orderId w) =
    match filter (fun r => String.eqb (orderid r) orderId) (Orders (committed w)) with
    | [] => Throw (ReferenceError "ResourceNotFoundException is not defined")
    | orderRow :: _ =>
        Normal
          (VObj [("orderId", VStr (orderid orderRow));
                 ("value", VNum (parseFloat host (row_value orderRow)));
                 ("creationDate", VStr (iso_string (creationdate orderRow)));
                 ("items",
                  VArr (map (item_response host)
                          (filter (fun r => String.eqb (item_orderid r) orderId)
                             (Items (committed w)))))])
    end.
Proof.
  intros host id w Hf0 Hf1.
  unfold getOrderDetails, findOrderById, findItemsByOrderId, query, mbind.
  rewrite Hf0. simpl.
  destruct (filter (fun r => String.eqb (orderid r) id) (Orders (committed w)))
    as [| orderRow rest]; simpl.
  - reflexivity.
  - unfold fault_now. simpl. rewrite length_app. simpl.
    rewrite Nat.add_1_r, Hf1. simpl. reflexivity.
Qed.

Lemma getOrderDetails_behaviour_witness :
  fault_now example_world = None /\
  faults example_world (S (List.length (trace example_world))) = None /\
  fst (getOrderDetails sample_host "1002" example_world) =
  Throw (ReferenceError "ResourceNotFoundException is not defined").
Proof.
  split; [reflexivity | split; [reflexivity |]].
  exact (getOrderDetails_behaviour sample_host "1002" example_world eq_refl eq_refl).
Defined.

(** ** Deleting an order *)

(** C7, as the code runs: when the statement does not fail, [deleteOrder]
    on an id that has a header row removes it (and, by the cascade of the
    store, its item rows) and returns; on an id whose delete affects no row it
    changes nothing and throws, but what it throws is the ReferenceError for
    the unbound identifier [ResourceNotFoundException], not the Not-Found
    error. *)
Theorem deleteOrder_behaviour :
  forall (orderId : string) (w : world),
    fault_now w = None ->
    exists w',
      deleteOrder orderId w =
      (if has_order orderId (committed w) then Normal tt
       else Throw (ReferenceError "ResourceNotFoundException is not defined"), w') /\
      trace w' = (trace w ++ [Query false (DeleteOrder orderId)])%list /\
      committed w' =
      (if has_order orderId (committed w) then
         {| Orders := filter (fun r => negb (String.eqb (orderid r) orderId))
                        (Orders (committed w));
            Items := filter (fun r => negb (String.eqb (item_orderid r) orderId))
                       (Items (committed w)) |}
       else committed w).
Proof.
  intros id w Hf.
  unfold deleteOrder, deleteOrderHeader, query, mbind. rewrite Hf. simpl.
  unfold has_order.
  destruct (existsb (fun r => String.eqb (orderid r) id) (Orders (committed w))) eqn:Hex.
  - destruct (filter_some _ _ _ Hex) as (a & r & Hfilter). rewrite Hfilter. simpl.
    eexists. split; [reflexivity |]. split; reflexivity.
  - rewrite (filter_none _ _ _ Hex). simpl.
    eexists. split; [reflexivity |]. split; [reflexivity |]. simpl.
    rewrite (filter_all _ _ _ Hex). destruct (committed w); reflexivity.
Qed.

Lemma deleteOrder_behaviour_witness :
  fault_now example_world = None /\
  exists w',
    deleteOrder "1002" example_world =
    (Throw (ReferenceError "ResourceNotFoundException is not defined"), w') /\
    committed w' = example_db.
Proof.
  split; [reflexivity |].
  destruct (deleteOrder_behaviour "1002" example_world eq_refl) as (w' & Hrun & _ & Hdb).
  exists w'. split; [exact Hrun | exact Hdb].
Defined.

(** ** Updating an item *)

(** C6, as the code runs: with both values present, the order found and no
    statement failing, the update is aimed at the rows of [Items] whose
    (orderId, productId) is the pair given. When there is such a row the
    transaction is committed with the new quantity and price and the call
    returns [true]. When there is none the transaction is rolled back, the
    item table is as before, and the call throws; but what it throws is the
    ReferenceError for the unbound identifier [ResourceNotFoundException],
    not a Not-Found error naming the item and the order. *)
Theorem updateItemOrder_behaviour :
  forall (host : Host) (orderId : string) (productId : float)
         (props : list (string * jsval)) (n : Z) (w : world),
    (forall k, faults w k = None) ->
    session w = None ->
    is_undefined (js_or (lookup "quantidadeItem" props) (lookup "quantity" props)) = false ->
    is_undefined (js_or (lookup "valorItem" props) (lookup "price" props)) = false ->
    has_order orderId (committed w) = true ->
    int4_in productId = Normal n ->
    let q := js_or (lookup "quantidadeItem" props) (lookup "quantity" props) in
    let p := js_or (lookup "valorItem" props) (lookup "price" props) in
    let hit r := String.eqb (item_orderid r) orderId && (productid r =? n) in
    let found := existsb hit (Items (committed w)) in
    exists w',
      updateItemOrder host orderId productId (VObj props) w =
      (if found then Normal true
       else Throw (ReferenceError "ResourceNotFoundException is not defined"), w') /\
      Orders (committed w') = Orders (committed w) /\
      Items (committed w') =
      (if found then
         map (fun r => if hit r
                       then {| item_orderid := item_orderid r; productid := productid r;
                               row_quantity := prepareValue q; row_price := prepareValue p |}
                       else r) (Items (committed w))
       else Items (committed w)) /\
      session w' = None /\
      trace w' =
      (trace w ++ [Query false (SelectOrderById orderId); Connect true; Query true BEGIN;
                   Query true (UpdateItem q p orderId productId);
                   Query true (if found then COMMIT else ROLLBACK); Release])%list.
Proof.
  intros host id pid props n w Hf Hs Hq Hp Horder Hn q p hit found.
  subst q p found.
  unfold updateItemOrder. simpl. unfold mbind at 1 2 3 4. simpl.
  rewrite Hq, Hp. simpl.
  unfold mbind at 1. unfold findOrderById, query, fault_now. rewrite Hf. simpl.
  destruct (filter_some _ _ _ Horder) as (a & r & Hfilter). rewrite Hfilter. simpl.
  unfold mbind at 1. unfold pool_connect, fault_now. simpl. rewrite Hf.
  rewrite transactional_block.
  unfold mbind at 1. unfold client_query at 1. unfold fault_now. simpl. rewrite Hf. simpl.
  unfold mbind at 1. unfold updateOrderItem, client_query at 1. unfold fault_now.
  simpl. rewrite Hf. unfold sql_update_item. rewrite Hn. simpl.
  unfold visible. simpl. rewrite Hs. fold hit.
  destruct (existsb hit (Items (committed w))) eqn:Hex.
  - destruct (filter_some _ _ _ Hex) as (a' & r' & Hhit). rewrite Hhit. simpl.
    unfold mbind at 1. unfold client_query at 1. unfold fault_now. simpl. rewrite Hf. simpl.
    eexists. split; [reflexivity |]. simpl.
    repeat split. repeat rewrite <- app_assoc. reflexivity.
  - rewrite (filter_none _ _ _ Hex). simpl.
    unfold rethrown, after_rollback, fault_now. simpl. rewrite Hf.
    eexists. split; [reflexivity |]. simpl.
    repeat split. repeat rewrite <- app_assoc. reflexivity.
Qed.

Lemma updateItemOrder_behaviour_witness :
  (forall k, faults example_world k = None) /\
  session example_world = None /\
  has_order "1001" (committed example_world) = true /\
  int4_in 8 = Normal 8 /\
  exists w',
    updateItemOrder sample_host "1001" 8 new_quantity_and_price example_world =
    (Throw (ReferenceError "ResourceNotFoundException is not defined"), w') /\
    Items (committed w') = Items example_db.
Proof.
  split; [reflexivity |]. split; [reflexivity |]. split; [reflexivity |].
  split; [reflexivity |].
  destruct (updateItemOrder_behaviour sample_host "1001" 8
              [("quantity", VNum 3); ("price", VNum 5)] 8 example_world
              (fun _ => eq_refl) eq_refl eq_refl eq_refl eq_refl eq_refl)
    as (w' & Hrun & _ & Hitems & _).
  exists w'. split; [exact Hrun | exact Hitems].
Defined.

(** ** No connection is leaked *)

Lemma queries_neither_acquire_nor_release :
  forall evs,
    forallb is_query evs = true ->
    filter is_release evs = [] /\ filter is_acquire evs = [] /\
    existsb is_acquire evs = false.
Proof.
  induction evs as [| ev r IH]; simpl; intros H; [repeat split |].
  apply andb_prop in H. destruct H as [Hev Hr].
  destruct (IH Hr) as (H1 & H2 & H3).
  destruct ev as [b | | b st]; try discriminate. simpl. auto.
Qed.

Lemma quiet_ret : forall (A : Type) (a : A), quiet (ret a).
Proof.
  intros A a w. exists []. simpl. rewrite app_nil_r. auto.
Qed.

Lemma quiet_throw : forall (A : Type) (e : error), quiet (@throw A e).
Proof.
  intros A e w. exists []. simpl. rewrite app_nil_r. auto.
Qed.

Lemma quiet_lift : forall (A : Type) (c : completion A), quiet (lift c).
Proof.
  intros A c w. exists []. simpl. rewrite app_nil_r. auto.
Qed.

Lemma quiet_throw_new :
  forall (A : Type) (resourceName identifier : string),
    quiet (@throw_new_ResourceNotFoundException A resourceName identifier).
Proof.
  intros A rn id w. exists []. simpl. rewrite app_nil_r. auto.
Qed.

Lemma quiet_client_query : forall (c : client) (st : statement), quiet (client_query c st).
Proof.
  intros c st w. exists [Query true st]. unfold client_query.
  destruct (fault_now w); [simpl; auto |].
  destruct (run st (visible w)) as [[db r] | e]; [| simpl; auto].
  destruct st; simpl; try destruct (session w); simpl; auto.
Qed.

Lemma quiet_query : forall st : statement, quiet (query st).
Proof.
  intros st w. exists [Query false st]. unfold query.
  destruct (fault_now w); [simpl; auto |].
  destruct (run st (committed w)) as [[db r] | e]; simpl; auto.
Qed.

Lemma quiet_bind :
  forall (A B : Type) (m : M A) (k : A -> M B),
    quiet m -> (forall a, quiet (k a)) -> quiet (mbind m k).
Proof.
  intros A B m k Hm Hk w. unfold mbind.
  destruct (Hm w) as (evs1 & Ht1 & Hq1 & Hc1).
  destruct (m w) as [[a | e] w1]; simpl in *.
  - destruct (Hk a w1) as (evs2 & Ht2 & Hq2 & Hc2).
    exists (evs1 ++ evs2)%list.
    rewrite Ht2, Ht1, Hc2, Hc1, forallb_app, Hq1, Hq2, app_assoc. auto.
  - exists evs1. auto.
Qed.

Lemma quiet_for_of :
  forall (A : Type) (xs : list A) (body : A -> M unit),
    (forall x, quiet (body x)) -> quiet (for_of xs body).
Proof.
  intros A xs body Hbody. induction xs as [| x r IH]; simpl.
  - apply quiet_ret.
  - apply quiet_bind; [apply Hbody | intros _; exact IH].
Qed.

Lemma guarded_quiet : forall (A : Type) (m : M A), quiet m -> guarded m.
Proof.
  intros A m Hm w. destruct (Hm w) as (evs & Ht & Hq & Hc).
  destruct (queries_neither_acquire_nor_release _ Hq) as (Hrel & Hacq & Hno).
  exists evs. rewrite Hrel, Hacq, Hno.
  split; [assumption |]. split; [assumption |]. split; [reflexivity |].
  intros H. discriminate H.
Qed.

Lemma ends_with_app :
  forall pre evs tail, ends_with evs tail -> ends_with (pre ++ evs)%list tail.
Proof.
  intros pre evs tail [pre' H]. exists (pre ++ pre')%list.
  rewrite H, app_assoc. reflexivity.
Qed.

Lemma guarded_bind :
  forall (A B : Type) (m : M A) (k : A -> M B),
    quiet m -> (forall a, guarded (k a)) -> guarded (mbind m k).
Proof.
  intros A B m k Hm Hk w. unfold mbind.
  destruct (Hm w) as (evs1 & Ht1 & Hq1 & Hc1).
  destruct (queries_neither_acquire_nor_release _ Hq1) as (Hrel & Hacq & Hno).
  destruct (m w) as [[a | e] w1]; simpl in *.
  - destruct (Hk a w1) as (evs2 & Ht2 & Hc2 & Hbal & Hend).
    exists (evs1 ++ evs2)%list.
    rewrite Ht2, Ht1, Hc2, Hc1, app_assoc, !filter_app, Hrel, Hacq, existsb_app, Hno.
    simpl. repeat split; auto.
    + apply ends_with_app. apply Hend. assumption.
    + intros e He. apply ends_with_app. destruct (Hend H) as [_ Hthrow].
      apply (Hthrow e He).
  - exists evs1. rewrite Hrel, Hacq, Hno.
    split; [assumption |]. split; [assumption |]. split; [reflexivity |].
    intros H. discriminate H.
Qed.

(** The pattern shared by the three write paths: acquire a client, run the
    statements in [try], ROLLBACK and rethrow in [catch], release in
    [finally]. *)
Lemma transaction_run :
  forall (A : Type) (body : client -> M A) (w : world),
    mbind pool_connect (fun c =>
      try_catch_finally (body c)
        (fun error => client_query c ROLLBACK ;;; throw error)%M
        (release c)) w =
    match fault_now w with
    | Some e => (Throw e, log (Connect false) w)
    | None =>
        match body Client (acquired w) with
        | (Normal a, w1) => (Normal a, released w1)
        | (Throw e, w1) => (Throw (rethrown e w1), released (after_rollback w1))
        end
    end.
Proof.
  intros A body w. unfold mbind at 1. unfold pool_connect.
  destruct (fault_now w); [reflexivity |].
  rewrite transactional_block. reflexivity.
Qed.

Lemma guarded_transaction :
  forall (A : Type) (body : client -> M A),
    (forall c, quiet (body c)) ->
    guarded
      (mbind pool_connect (fun c =>
         try_catch_finally (body c)
           (fun error => client_query c ROLLBACK ;;; throw error)%M
           (release c))).
Proof.
  intros A body Hbody w. rewrite transaction_run.
  destruct (fault_now w) as [e |].
  - exists [Connect false]. simpl.
    split; [reflexivity |]. split; [reflexivity |]. split; [reflexivity |].
    intros H. discriminate H.
  - destruct (Hbody Client (acquired w)) as (evs & Ht & Hq & Hc).
    destruct (queries_neither_acquire_nor_release _ Hq) as (Hrel & Hacq & Hno).
    destruct (body Client (acquired w)) as [[a | e] w2]; simpl in *.
    + exists (Connect true :: evs ++ [Release])%list.
      rewrite Ht, Hc. simpl. rewrite !filter_app, Hrel, Hacq. simpl.
      split; [rewrite <- !app_assoc; reflexivity |].
      split; [reflexivity |]. split; [reflexivity |]. intros _. split.
      * exists (Connect true :: evs). reflexivity.
      * intros e He. discriminate He.
    + exists (Connect true :: evs ++ [Query true ROLLBACK; Release])%list.
      simpl. rewrite after_rollback_trace, after_rollback_checked_out, Ht, Hc.
      simpl. rewrite !filter_app, Hrel, Hacq. simpl.
      split; [rewrite <- !app_assoc; reflexivity |].
      split; [reflexivity |]. split; [reflexivity |]. intros _. split.
      * exists (Connect true :: evs ++ [Query true ROLLBACK])%list.
        simpl. rewrite <- app_assoc. reflexivity.
      * intros e0 _. exists (Connect true :: evs). reflexivity.
Qed.

(** The data-access functions and the monad's combinators are quiet. *)
Ltac quiet_steps :=
  repeat first
    [ apply quiet_ret | apply quiet_throw | apply quiet_lift | apply quiet_throw_new
    | match goal with
      | |- quiet (client_query ?c ?st) => exact (quiet_client_query c st)
      | |- quiet (query ?st) => exact (quiet_query st)
      end
    | apply quiet_for_of; intros ?
    | apply quiet_bind; [| intros ?]
    | progress unfold insertOrder, insertOrderItem, findOrderById, findItemsByOrderId,
        updateOrderHeader, updateOrderItem, deleteOrderItems, deleteOrderHeader ].

(** C9: each of the three transactional write paths, on every input and in
    every world (whatever statement or connection attempt fails), leaves as
    many connections checked out as it found; once it has acquired its client
    the last thing it does is release it, and whenever it then ends by
    throwing, the ROLLBACK was sent just before that release. *)
Theorem write_paths_rollback_and_release :
  forall host : Host,
    (forall inputBody, guarded (createOrder host inputBody)) /\
    (forall orderId inputBody, guarded (updateOrder host orderId inputBody)) /\
    (forall orderId productId inputItemBody,
        guarded (updateItemOrder host orderId productId inputItemBody)).
Proof.
  intros host. split; [| split].
  - intros inputBody. unfold createOrder.
    apply guarded_bind; [apply quiet_lift |]. intros m.
    apply guarded_transaction. intros c. quiet_steps.
  - intros id inputBody. unfold updateOrder.
    apply guarded_bind; [apply quiet_lift |]. intros m.
    apply guarded_transaction. intros c. quiet_steps.
    destruct (rows _); quiet_steps.
  - intros id pid body. unfold updateItemOrder.
    repeat (apply guarded_bind; [apply quiet_lift | intros ?]).
    destruct (_ || _); [apply guarded_quiet, quiet_throw |].
    apply guarded_bind; [quiet_steps | intros orderResult].
    destruct (rows orderResult); [apply guarded_quiet, quiet_throw_new |].
    apply guarded_transaction. intros c. quiet_steps.
    destruct (Nat.eqb _ _); quiet_steps.
Qed.

(** ** The items of a mapped order, element by element *)

Lemma cbind_Normal_inv :
  forall (A B : Type) (c : completion A) (k : A -> completion B) (b : B),
    cbind c k = Normal b -> exists a, c = Normal a /\ k a = Normal b.
Proof.
  intros A B c k b H. destruct c as [a | e]; [eauto | discriminate].
Qed.

Lemma cmap_Forall2 :
  forall (A B : Type) (f : A -> completion B) (l : list A) (l' : list B),
    cmap f l = Normal l' -> Forall2 (fun a b => f a = Normal b) l l'.
Proof.
  intros A B f l. induction l as [| a r IH]; simpl; intros l' H.
  - inversion H. constructor.
  - destruct (f a) as [b | e] eqn:Hfa; [| discriminate].
    destruct (cmap f r) as [bs | e]; [| discriminate].
    inversion H. constructor; [exact Hfa | apply IH; reflexivity].
Qed.

(** A mapped order has one item for each element of the payload's items
    array, in the order of the array. *)
Lemma mapToDatabaseFormat_items :
  forall (host : Host) (inputBody : jsval) (m : order_data),
    mapToDatabaseFormat host inputBody = Normal m ->
    exists elems,
      get inputBody "items" = Normal (VArr elems) /\
      Forall2 (fun e it => transformItem host e = Normal it) elems (items m).
Proof.
  intros host inputBody m H. unfold mapToDatabaseFormat in H.
  repeat (apply cbind_Normal_inv in H; destruct H as (? & ? & H)).
  inversion H; subst; clear H. simpl.
  match goal with
  | Hget : get inputBody "items" = Normal ?v, Hmap : call_map ?v _ = Normal _ |- _ =>
      destruct v; try discriminate Hmap; exists elems; split; [exact Hget |];
      apply cmap_Forall2; exact Hmap
  end.
Qed.

(** ** Dates written by [toISOString] read back *)

(** The two calendar conversions are inverse, and the civil date computed
    from a day number is a date of the calendar. *)
Lemma civil_from_days_inverse :
  forall z : Z,
    match civil_from_days z with
    | (y, m, d) =>
        days_from_civil y m d = z /\ 1 <= m <= 12 /\ 1 <= d <= days_in_month y m
    end.
Proof.
  intros z. unfold civil_from_days, days_from_civil. cbv zeta.
  unfold days_in_month, is_leap.
  repeat match goal with
         | |- context [?a <? ?b] => destruct (Z.ltb_spec0 a b)
         | |- context [?a <=? ?b] => destruct (Z.leb_spec0 a b)
         end;
    match goal with
    | |- context [?m =? 2] => destruct (Z.eqb_spec m 2)
    end; cbv beta iota;
    repeat match goal with
           | |- context [?a =? ?b] => destruct (Z.eqb_spec a b); cbn [andb orb negb]
           end;
    (Z.to_euclidean_division_equations; lia).
Qed.

Lemma civil_from_days_year :
  forall z : Z,
    - 100000000 <= z <= 100000000 ->
    match civil_from_days z with
    | (y, m, d) => - 999999 <= y <= 999999
    end.
Proof.
  intros z Hz. unfold civil_from_days. cbv zeta.
  repeat match goal with
         | |- context [?a <? ?b] => destruct (Z.ltb_spec0 a b)
         | |- context [?a <=? ?b] => destruct (Z.leb_spec0 a b)
         end;
    (Z.to_euclidean_division_equations; lia).
Qed.

Lemma digit_of_digit_char : forall d : Z, digit_of (digit_char d) = Some (d mod 10).
Proof.
  intros d. unfold digit_char.
  assert (H : 0 <= d mod 10 < 10) by (apply Z.mod_pos_bound; lia).
  assert (Hc : d mod 10 = 0 \/ d mod 10 = 1 \/ d mod 10 = 2 \/ d mod 10 = 3 \/
               d mod 10 = 4 \/ d mod 10 = 5 \/ d mod 10 = 6 \/ d mod 10 = 7 \/
               d mod 10 = 8 \/ d mod 10 = 9) by lia.
  repeat (destruct Hc as [Hc | Hc]; [rewrite Hc; reflexivity |]).
  rewrite Hc. reflexivity.
Qed.

Lemma append_assoc :
  forall a b c : string, ((a ++ b) ++ c = a ++ (b ++ c))%string.
Proof.
  induction a as [| ch a IH]; intros b c; simpl; [reflexivity |].
  rewrite IH. reflexivity.
Qed.

(** Reading back the digits that [pad] wrote. *)
Lemma take_digits_pad_more :
  forall (n k : nat) (acc x : Z) (rest : string),
    0 <= x < 10 ^ Z.of_nat n ->
    take_digits (n + k) acc (pad n x ++ rest) =
    take_digits k (acc * 10 ^ Z.of_nat n + x) rest.
Proof.
  induction n as [| n IH]; intros k acc x rest Hx.
  - simpl in *. replace (acc * 1 + x) with acc by lia. reflexivity.
  - cbn [pad]. rewrite append_assoc. cbn [append].
    replace (S n + k)%nat with (n + S k)%nat by lia.
    rewrite Nat2Z.inj_succ, Z.pow_succ_r in Hx by lia.
    rewrite IH by (Z.to_euclidean_division_equations; lia).
    cbn [take_digits]. rewrite digit_of_digit_char.
    f_equal. rewrite Nat2Z.inj_succ, Z.pow_succ_r by lia.
    Z.to_euclidean_division_equations; lia.
Qed.

Lemma take_digits_pad :
  forall (n : nat) (x : Z) (rest : string),
    0 <= x < 10 ^ Z.of_nat n ->
    take_digits n 0 (pad n x ++ rest) = Some (x, rest).
Proof.
  intros n x rest Hx.
  rewrite <- (Nat.add_0_r n) at 1. rewrite take_digits_pad_more by exact Hx.
  reflexivity.
Qed.

Lemma parse_year_digits :
  forall (d : Z) (r : string),
    parse_year (String (digit_char d) r) = take_digits 4 0 (String (digit_char d) r).
Proof.
  intros d r. pose proof (digit_char_cases d) as H. simpl in H.
  repeat (destruct H as [H | H]; [rewrite <- H; reflexivity |]).
  contradiction.
Qed.

Lemma parse_year_iso_year :
  forall (y : Z) (rest : string),
    - 999999 <= y <= 999999 ->
    parse_year (iso_year y ++ rest) = Some (y, rest).
Proof.
  intros y rest Hy. unfold iso_year.
  destruct ((0 <=? y) && (y <=? 9999)) eqn:Hrange.
  - apply andb_prop in Hrange. destruct Hrange as [H0 H1].
    apply Z.leb_le in H0. apply Z.leb_le in H1.
    assert (Hform : exists r', pad 4 y ++ rest = String (digit_char (y / 10 / 10 / 10)) r')
      by (cbn [pad append]; eexists; reflexivity).
    destruct Hform as [r' Hr'].
    rewrite Hr', parse_year_digits, <- Hr'.
    apply take_digits_pad. simpl. lia.
  - destruct (Z.ltb_spec0 y 0) as [Hneg | Hpos]; cbn [append]; unfold parse_year.
    + rewrite take_digits_pad by (simpl; lia).
      destruct (Z.eqb_spec (Z.abs y) 0); [lia |].
      f_equal. f_equal. lia.
    + rewrite take_digits_pad by (simpl; lia).
      f_equal. f_equal. lia.
Qed.

Lemma parse_dash_field_pad :
  forall (x : Z) (rest : string),
    0 <= x < 100 ->
    parse_dash_field (String "-" (pad 2 x ++ rest)) = (Some x, rest).
Proof.
  intros x rest Hx. unfold parse_dash_field.
  rewrite take_digits_pad by (simpl; lia). reflexivity.
Qed.

Lemma parse_time_pad :
  forall h mi sec ms : Z,
    0 <= h <= 23 -> 0 <= mi <= 59 -> 0 <= sec <= 59 -> 0 <= ms <= 999 ->
    parse_time
      (pad 2 h ++ String ":" (pad 2 mi ++ String ":" (pad 2 sec ++ String "."
         (pad 3 ms ++ "Z")))) =
    Some (h * 3600000 + mi * 60000 + sec * 1000 + ms).
Proof.
  intros h mi sec ms Hh Hmi Hsec Hms. unfold parse_time.
  rewrite take_digits_pad by (simpl; lia).
  rewrite take_digits_pad by (simpl; lia).
  rewrite take_digits_pad by (simpl; lia).
  rewrite take_digits_pad by (simpl; lia).
  destruct (Z.leb_spec0 h 23); [| lia].
  destruct (Z.leb_spec0 mi 59); [| lia].
  destruct (Z.leb_spec0 sec 59); [| lia].
  simpl. f_equal. lia.
Qed.

(** What [toISOString] writes, [Date.parse] reads back as the same instant. *)
Lemma iso_parse_iso_string :
  forall t : Z,
    Z.abs t <= 8640000000000000 ->
    iso_parse (iso_string t) = Some t.
Proof.
  intros t Ht. unfold iso_string.
  pose proof (civil_from_days_inverse (t / msPerDay)) as Hcivil.
  assert (Hdays : - 100000000 <= t / msPerDay <= 100000000)
    by (unfold msPerDay; Z.to_euclidean_division_equations; lia).
  pose proof (civil_from_days_year (t / msPerDay) Hdays) as Hyear.
  destruct (civil_from_days (t / msPerDay)) as [[y m] d].
  destruct Hcivil as (Hinv & Hm & Hd).
  assert (Hd31 : d <= 31).
  { unfold days_in_month in Hd.
    destruct (m =? 2); [destruct (is_leap y); lia |].
    destruct ((m =? 4) || (m =? 6) || (m =? 9) || (m =? 11)); lia. }
  pose proof (Z.div_mod t msPerDay ltac:(discriminate)) as Hsplit.
  assert (Hr : 0 <= t mod msPerDay < 86400000) by (apply Z.mod_pos_bound; reflexivity).
  set (r := t mod msPerDay) in *.
  unfold iso_parse. cbn [append].
  rewrite parse_year_iso_year by exact Hyear.
  rewrite parse_dash_field_pad by lia.
  rewrite parse_dash_field_pad by lia.
  destruct (Z.leb_spec0 1 m); [| lia].
  destruct (Z.leb_spec0 m 12); [| lia].
  destruct (Z.leb_spec0 1 d); [| lia].
  destruct (Z.leb_spec0 d (days_in_month y m)); [| lia].
  cbn [andb].
  rewrite parse_time_pad by (Z.to_euclidean_division_equations; lia).
  f_equal. rewrite Hinv.
  unfold msPerDay in *. Z.to_euclidean_division_equations; lia.
Qed.

Lemma timestamp_in_iso_string :
  forall t : Z,
    Z.abs t <= 8640000000000000 ->
    timestamp_in (iso_string t) = Normal t.
Proof.
  intros t Ht. unfold timestamp_in. rewrite iso_parse_iso_string by exact Ht.
  reflexivity.
Qed.

Lemma new_Date_clipped :
  forall (host : Host) (v : jsval) (t : Z),
    new_Date host v = Some t -> Z.abs t <= 8640000000000000.
Proof.
  assert (Hclip : forall o t, time_clip o = Some t -> Z.abs t <= 8640000000000000).
  { intros [t' |] t; simpl; [| discriminate].
    destruct (Z.leb_spec0 (Z.abs t') 8640000000000000); [| discriminate].
    intros H. inversion H; subst. assumption. }
  assert (Hparse : forall host s t, Date_parse host s = Some t ->
                                    Z.abs t <= 8640000000000000).
  { intros host s t. unfold Date_parse.
    destruct (iso_parse s); apply Hclip. }
  intros host v t. destruct v; simpl; try discriminate.
  - intros H. inversion H. simpl. lia.
  - intros H. inversion H. destruct b; simpl; lia.
  - apply Hclip.
  - apply Hparse.
  - apply Hparse.
  - apply Hparse.
Qed.

(** The creation date of a mapped order is text that the store reads back. *)
Lemma mapToDatabaseFormat_creationDate :
  forall (host : Host) (inputBody : jsval) (m : order_data),
    mapToDatabaseFormat host inputBody = Normal m ->
    exists t, creationDate m = iso_string t /\ timestamp_in (creationDate m) = Normal t.
Proof.
  intros host inputBody m H. unfold mapToDatabaseFormat in H.
  repeat (apply cbind_Normal_inv in H; destruct H as (? & ? & H)).
  inversion H; subst; clear H. simpl.
  match goal with
  | Hiso : toISOString (new_Date host ?v) = Normal _ |- _ =>
      destruct (new_Date host v) as [t |] eqn:Hdate; [| discriminate Hiso];
      inversion Hiso; subst; clear Hiso
  end.
  exists t. split; [reflexivity |].
  apply timestamp_in_iso_string. eapply new_Date_clipped. exact Hdate.
Qed.

Lemma length_snoc :
  forall (A : Type) (l : list A) (x : A), List.length (l ++ [x]) = S (List.length l).
Proof.
  intros A l x. rewrite length_app. simpl. apply Nat.add_1_r.
Qed.

(** ** The first failure of a sequence of statements *)

Lemma first_failure_fault :
  forall oracle k db st rest e,
    oracle k = Some e -> first_failure oracle k db (st :: rest) = inl (O, e).
Proof.
  intros oracle k db st rest e H. simpl. rewrite H. reflexivity.
Qed.

Lemma first_failure_refused :
  forall oracle k db st rest e,
    oracle k = None -> run st db = Throw e ->
    first_failure oracle k db (st :: rest) = inl (O, e).
Proof.
  intros oracle k db st rest e H Hrun. simpl. rewrite H, Hrun. reflexivity.
Qed.

Lemma first_failure_accepted :
  forall oracle k db st rest db' r,
    oracle k = None -> run st db = Normal (db', r) ->
    first_failure oracle k db (st :: rest) =
    match first_failure oracle (S k) db' rest with
    | inl (n, e) => inl (S n, e)
    | inr d => inr d
    end.
Proof.
  intros oracle k db st rest db' r H Hrun. simpl. rewrite H, Hrun. reflexivity.
Qed.

Lemma first_failure_app :
  forall (oracle : nat -> option error) (l1 l2 : list statement) (k : nat) (db : database),
    first_failure oracle k db (l1 ++ l2)%list =
    match first_failure oracle k db l1 with
    | inl x => inl x
    | inr db' =>
        match first_failure oracle (k + List.length l1) db' l2 with
        | inl (n, e) => inl ((List.length l1 + n)%nat, e)
        | inr d => inr d
        end
    end.
Proof.
  intros oracle l1 l2. induction l1 as [| st r IH]; intros k db; simpl.
  - rewrite Nat.add_0_r.
    destruct (first_failure oracle k db l2) as [[n e] | d]; reflexivity.
  - destruct (oracle k); [reflexivity |].
    destruct (run st db) as [[db' res] | e]; [| reflexivity].
    rewrite IH.
    destruct (first_failure oracle (S k) db' r) as [[n e] | d]; [reflexivity |].
    rewrite Nat.add_succ_r. simpl.
    destruct (first_failure oracle (S (k + List.length r)) d l2) as [[n e] | d'];
      reflexivity.
Qed.

(** The statement that fails is one of those that were to be sent. *)
Lemma first_failure_lt :
  forall (oracle : nat -> option error) (sts : list statement) (k : nat) (db : database)
         (n : nat) (e : error),
    first_failure oracle k db sts = inl (n, e) -> (n < List.length sts)%nat.
Proof.
  intros oracle sts. induction sts as [| st r IH]; intros k db n e H; simpl in *.
  - discriminate.
  - destruct (oracle k); [inversion H; lia |].
    destruct (run st db) as [[db' res] | e']; [| inversion H; lia].
    destruct (first_failure oracle (S k) db' r) as [[n' e'] | d] eqn:Hrest;
      [| discriminate].
    inversion H; subst. apply IH in Hrest. lia.
Qed.

(** ** Creating an order *)

Lemma insert_item_step :
  forall (c : client) (id : string) (it : item_data) (w : world) (db : database),
    session w = Some db ->
    insertOrderItem c id it w =
    match fault_now w with
    | Some e => (Throw e, log (Query true (insert_item_statement id it)) w)
    | None =>
        match run (insert_item_statement id it) db with
        | Normal (db', r) =>
            (Normal r, in_session db' (Query true (insert_item_statement id it)) w)
        | Throw e => (Throw e, log (Query true (insert_item_statement id it)) w)
        end
    end.
Proof.
  intros c id it w db Hs. unfold insertOrderItem, client_query, visible.
  rewrite Hs. destruct (fault_now w); [reflexivity |].
  fold (insert_item_statement id it).
  destruct (run (insert_item_statement id it) db) as [[db' r] | e]; [| reflexivity].
  simpl. rewrite Hs. reflexivity.
Qed.

Lemma insert_items_loop :
  forall (c : client) (id : string) (its : list item_data) (w : world) (db : database),
    session w = Some db ->
    match for_of its (fun item => insertOrderItem c id item ;;; ret tt)%M w with
    | (Normal _, w') =>
        exists rows,
          Forall2 (stored_item id) its rows /\
          session w' = Some {| Orders := Orders db; Items := Items db ++ rows |} /\
          committed w' = committed w /\
          faults w' = faults w /\
          trace w' =
          (trace w ++ map (fun it => Query true (insert_item_statement id it)) its)%list /\
          first_failure (faults w) (List.length (trace w)) db
            (map (insert_item_statement id) its) =
          inr {| Orders := Orders db; Items := Items db ++ rows |}
    | (Throw e, w') =>
        committed w' = committed w /\
        (exists evs, trace w' = (trace w ++ evs)%list) /\
        ((exists k, (List.length (trace w) <= k)%nat /\ faults w k = Some e) \/
         (exists it db',
             In it its /\ Orders db' = Orders db /\
             run (insert_item_statement id it) db' = Throw e)) /\
        faults w' = faults w /\
        (exists db', session w' = Some db') /\
        exists n,
          first_failure (faults w) (List.length (trace w)) db
            (map (insert_item_statement id) its) = inl (n, e) /\
          trace w' =
          (trace w ++ map (Query true)
                        (firstn (S n) (map (insert_item_statement id) its)))%list
    end.
Proof.
  intros c id its. induction its as [| it r IH]; intros w db Hs.
  - simpl. exists []. rewrite (app_nil_r (trace w)), (app_nil_r (Items db)).
    split; [constructor |]. split; [rewrite Hs; destruct db; reflexivity |].
    repeat split; try reflexivity. destruct db; reflexivity.
  - cbn [for_of map]. unfold mbind at 1 2. rewrite (insert_item_step c id it w db Hs).
    destruct (fault_now w) as [e |] eqn:Hfault.
    + split; [reflexivity |]. split; [eexists; reflexivity |]. split.
      { left. exists (List.length (trace w)). split; [lia | exact Hfault]. }
      split; [reflexivity |]. split; [exists db; exact Hs |].
      exists O. split; [apply first_failure_fault; exact Hfault | reflexivity].
    + destruct (run (insert_item_statement id it) db) as [[db1 res] | e] eqn:Hrun.
      * rewrite (first_failure_accepted _ _ _ _ _ _ _ Hfault Hrun).
        simpl in Hrun. unfold sql_insert_item in Hrun.
        destruct (int4_in (productId it)) as [n |] eqn:Hn; [| discriminate].
        simpl in Hrun. destruct (has_order id db); [| discriminate].
        inversion Hrun; subst db1 res; clear Hrun.
        cbv beta iota. unfold ret at 1.
        match goal with
        | |- context [for_of r ?body ?w1] =>
            specialize (IH w1 _ eq_refl); destruct (for_of r body w1) as [[u | e] w2]
        end; simpl in IH; rewrite length_snoc in IH.
        -- destruct IH as (rows & Hrows & Hs2 & Hc2 & Hf2 & Ht2 & Hff).
           exists ({| item_orderid := id; productid := n;
                      row_quantity := prepareValue (quantity it);
                      row_price := prepareValue (price it) |} :: rows).
           split; [constructor; [| exact Hrows] |].
           ++ repeat split; simpl; auto.
           ++ rewrite Hs2, Hc2, Hf2, Ht2, Hff. simpl.
              rewrite <- !app_assoc. simpl. repeat split; reflexivity.
        -- destruct IH as (Hc2 & (evs & Ht2) & Horigin & Hf2 & Hs2 & n' & Hff & Ht2').
           split; [exact Hc2 |]. split.
           { rewrite Ht2. simpl. rewrite <- app_assoc. eexists; reflexivity. }
           split.
           { destruct Horigin as [(k & Hk & Hfk) | (it' & db' & Hin & Hsame & Hrun')].
             - left. exists k. split; [| exact Hfk].
               simpl in Hk. lia.
             - right. exists it', db'.
               split; [right; exact Hin |]. split; [exact Hsame | exact Hrun']. }
           split; [exact Hf2 |]. split; [exact Hs2 |].
           exists (S n'). rewrite Hff. split; [reflexivity |].
           rewrite Ht2'. simpl. rewrite <- app_assoc. reflexivity.
      * split; [reflexivity |]. split; [eexists; reflexivity |]. split.
        { right. exists it, db.
          split; [left; reflexivity |]. split; [reflexivity | exact Hrun]. }
        split; [reflexivity |]. split; [exists db; exact Hs |].
        exists O. split; [apply first_failure_refused; assumption | reflexivity].
Qed.


Lemma begin_step :
  forall (c : client) (w : world),
    session w = None ->
    client_query c BEGIN w =
    match fault_now w with
    | Some e => (Throw e, log (Query true BEGIN) w)
    | None => (Normal no_rows, in_session (committed w) (Query true BEGIN) w)
    end.
Proof.
  intros c w Hs. unfold client_query, visible. rewrite Hs.
  destruct (fault_now w); reflexivity.
Qed.

Lemma insert_order_step :
  forall (c : client) (m : order_data) (w : world) (db : database),
    session w = Some db ->
    insertOrder c m w =
    match fault_now w with
    | Some e => (Throw e, log (Query true (insert_order_statement m)) w)
    | None =>
        match run (insert_order_statement m) db with
        | Normal (db', r) =>
            (Normal r, in_session db' (Query true (insert_order_statement m)) w)
        | Throw e => (Throw e, log (Query true (insert_order_statement m)) w)
        end
    end.
Proof.
  intros c m w db Hs. unfold insertOrder, client_query, visible.
  rewrite Hs. destruct (fault_now w); [reflexivity |].
  fold (insert_order_statement m).
  destruct (run (insert_order_statement m) db) as [[db' r] | e]; [| reflexivity].
  simpl. rewrite Hs. reflexivity.
Qed.

Lemma commit_step :
  forall (c : client) (w : world) (db : database),
    session w = Some db ->
    client_query c COMMIT w =
    match fault_now w with
    | Some e => (Throw e, log (Query true COMMIT) w)
    | None =>
        (Normal no_rows,
         {| committed := db; session := None; checked_out := checked_out w;
            trace := trace w ++ [Query true COMMIT]; faults := faults w |})
    end.
Proof.
  intros c w db Hs. unfold client_query, visible. rewrite Hs.
  destruct (fault_now w); reflexivity.
Qed.

(** The [try] block of [createOrder] on a client that has no transaction
    open: it returns exactly when no statement of the transaction fails, and
    otherwise throws the error of the first one that does. *)
Lemma createOrder_block :
  forall (m : order_data) (w : world),
    session w = None ->
    match (client_query Client BEGIN ;;;
           insertOrder Client m ;;;
           for_of (items m)
             (fun item => insertOrderItem Client (orderId m) item ;;; ret tt) ;;;
           client_query Client COMMIT ;;;
           ret {| created_orderId := orderId m; data := m |})%M w with
    | (Normal c, w1) =>
        exists hdr rows,
          c = {| created_orderId := orderId m; data := m |} /\
          has_order (orderId m) (committed w) = false /\
          stored_order m hdr /\
          Forall2 (stored_item (orderId m)) (items m) rows /\
          committed w1 =
          {| Orders := Orders (committed w) ++ [hdr];
             Items := Items (committed w) ++ rows |} /\
          session w1 = None /\
          trace w1 = (trace w ++ map (Query true) (workflow_statements m))%list /\
          first_failure (faults w) (List.length (trace w)) (committed w)
            (workflow_statements m) = inr (committed w1)
    | (Throw e, w1) =>
        committed w1 = committed w /\
        faults w1 = faults w /\
        exists n,
          first_failure (faults w) (List.length (trace w)) (committed w)
            (workflow_statements m) = inl (n, e) /\
          trace w1 =
          (trace w ++ map (Query true) (firstn (S n) (workflow_statements m)))%list /\
          (session w1 = None <-> n = O)
    end.
Proof.
  intros m w Hs.
  unfold mbind at 1. rewrite (begin_step Client w Hs).
  destruct (fault_now w) as [e |] eqn:Hf1.
  { split; [reflexivity |]. split; [reflexivity |]. exists O.
    split; [apply first_failure_fault; exact Hf1 |]. split; [reflexivity |].
    simpl. split; auto. }
  assert (Hff1 : first_failure (faults w) (List.length (trace w)) (committed w)
                   (workflow_statements m) =
                 match first_failure (faults w) (S (List.length (trace w))) (committed w)
                         (insert_order_statement m
                            :: (map (insert_item_statement (orderId m)) (items m)
                                  ++ [COMMIT])%list) with
                 | inl (n, e) => inl (S n, e)
                 | inr d => inr d
                 end).
  { exact (first_failure_accepted (faults w) _ (committed w) BEGIN _ (committed w)
             no_rows Hf1 eq_refl). }
  set (w2 := in_session (committed w) (Query true BEGIN) w).
  unfold mbind at 1.
  rewrite (insert_order_step Client m w2 (committed w) eq_refl).
  assert (Hk2 : fault_now w2 = faults w (S (List.length (trace w)))).
  { unfold fault_now. simpl. rewrite length_snoc. reflexivity. }
  destruct (fault_now w2) as [e |] eqn:Hf2.
  { split; [reflexivity |]. split; [reflexivity |]. exists 1%nat.
    split; [| split].
    - rewrite Hff1, (first_failure_fault _ _ _ _ _ e (eq_sym Hk2)). reflexivity.
    - simpl. rewrite <- !app_assoc. reflexivity.
    - simpl. split; discriminate. }
  destruct (run (insert_order_statement m) (committed w)) as [[db1 res] | e] eqn:Hrun.
  2: { split; [reflexivity |]. split; [reflexivity |]. exists 1%nat.
       split; [| split].
       - rewrite Hff1, (first_failure_refused _ _ _ _ _ e (eq_sym Hk2) Hrun). reflexivity.
       - simpl. rewrite <- !app_assoc. reflexivity.
       - simpl. split; discriminate. }
  rewrite (first_failure_accepted _ _ _ _ _ _ _ (eq_sym Hk2) Hrun), first_failure_app
    in Hff1.
  simpl in Hrun. unfold sql_insert_order in Hrun.
  destruct (timestamp_in (creationDate m)) as [t |] eqn:Ht; [| discriminate].
  simpl in Hrun.
  destruct (has_order (orderId m) (committed w)) eqn:Hfree; [discriminate |].
  inversion Hrun; subst db1 res; clear Hrun.
  set (hdr := {| orderid := orderId m; row_value := prepareValue (value m);
                 creationdate := t |}) in *.
  set (db1 := {| Orders := Orders (committed w) ++ [hdr]; Items := Items (committed w) |})
    in *.
  set (w3 := in_session db1 (Query true (insert_order_statement m)) w2).
  unfold mbind at 1.
  pose proof (insert_items_loop Client (orderId m) (items m) w3 db1 eq_refl) as Hloop.
  assert (Hk3 : List.length (trace w3) = S (S (List.length (trace w)))).
  { simpl. rewrite !length_snoc. reflexivity. }
  rewrite Hk3 in Hloop. simpl faults in Hloop.
  destruct (for_of (items m)
              (fun item => insertOrderItem Client (orderId m) item ;;; ret tt)%M w3)
    as [[u | e] w4].
  2: { destruct Hloop as (Hc4 & _ & _ & Hf4 & (db' & Hs4) & n & Hff & Ht4).
       split; [exact Hc4 |]. split; [exact Hf4 |]. exists (S (S n)).
       pose proof (first_failure_lt _ _ _ _ _ _ Hff) as Hn.
       split; [| split].
       - rewrite Hff1, Hff. reflexivity.
       - rewrite Ht4. unfold workflow_statements, insert_statements.
         rewrite <- app_comm_cons, !firstn_cons, firstn_app.
         replace (S n - List.length (map (insert_item_statement (orderId m)) (items m)))%nat
           with O by lia.
         rewrite firstn_O, app_nil_r. subst w3 w2. cbn [trace in_session map].
         rewrite <- !app_assoc. reflexivity.
       - rewrite Hs4. split; discriminate. }
  destruct Hloop as (rows & Hrows & Hs4 & Hc4 & Hfaults4 & Ht4 & Hff).
  rewrite Hff in Hff1.
  unfold mbind at 1. rewrite (commit_step Client w4 _ Hs4).
  assert (Hk4 : fault_now w4 =
                faults w (S (S (List.length (trace w)))
                          + List.length (map (insert_item_statement (orderId m)) (items m)))).
  { unfold fault_now. rewrite Hfaults4, Ht4, length_app, Hk3, !length_map.
    reflexivity. }
  destruct (fault_now w4) as [e |] eqn:Hf4.
  { split; [exact Hc4 |]. split; [exact Hfaults4 |].
    exists (S (S (List.length (map (insert_item_statement (orderId m)) (items m))))).
    split; [| split].
    - rewrite Hff1, (first_failure_fault _ _ _ _ _ e (eq_sym Hk4)).
      rewrite Nat.add_0_r. reflexivity.
    - cbn [trace log]. rewrite Ht4. unfold workflow_statements, insert_statements.
      rewrite <- app_comm_cons, !firstn_cons.
      rewrite firstn_all2 by (rewrite length_snoc; lia).
      subst w3 w2. cbn [trace in_session map].
      rewrite map_app, map_map, <- !app_assoc. reflexivity.
    - simpl. rewrite Hs4. split; discriminate. }
  rewrite (first_failure_accepted (faults w) _
             {| Orders := Orders db1; Items := Items db1 ++ rows |} COMMIT []
             {| Orders := Orders db1; Items := Items db1 ++ rows |} no_rows
             (eq_sym Hk4) eq_refl) in Hff1.
  simpl in Hff1.
  exists hdr, rows.
  split; [reflexivity |]. split; [reflexivity |].
  split; [repeat split; exact Ht |]. split; [exact Hrows |].
  split; [reflexivity |]. split; [reflexivity |]. split.
  - simpl. rewrite Ht4. unfold workflow_statements, insert_statements. simpl.
    rewrite map_app, map_map, <- !app_assoc. reflexivity.
  - exact Hff1.
Qed.

(** C1, as the code runs: for every payload and every world with no
    transaction open, whatever call fails (connect, BEGIN, an INSERT, COMMIT,
    and ROLLBACK too), [createOrder] either returns, and then the mapper had
    produced the order (one item for each element of the payload's items
    array, in its order), its orderId was free, no statement of the
    transaction failed, the committed store has grown by exactly one header
    row and by one item row for each item of the order, in that same order,
    the statements were sent in that order between BEGIN and COMMIT, and no
    transaction is left open; or it throws, and then the committed store is
    what it was, and the error comes from the first step that failed: the
    mapper (nothing was sent), the connect (nothing else was sent), or the
    first statement of the transaction that the driver failed or the store
    refused (a duplicate orderId among them), after which nothing but ROLLBACK
    was sent before the release. The error thrown is that original error when
    the ROLLBACK is accepted, and no transaction is then left open; when the
    ROLLBACK is itself rejected, the error of the ROLLBACK is thrown in its
    place. *)
Theorem createOrder_atomic :
  forall (host : Host) (inputBody : jsval) (w : world),
    session w = None ->
    match createOrder host inputBody w with
    | (Normal c, w') =>
        exists m elems hdr rows,
          mapToDatabaseFormat host inputBody = Normal m /\
          get inputBody "items" = Normal (VArr elems) /\
          Forall2 (fun e it => transformItem host e = Normal it) elems (items m) /\
          c = {| created_orderId := orderId m; data := m |} /\
          has_order (orderId m) (committed w) = false /\
          stored_order m hdr /\
          Forall2 (stored_item (orderId m)) (items m) rows /\
          committed w' =
          {| Orders := Orders (committed w) ++ [hdr];
             Items := Items (committed w) ++ rows |} /\
          session w' = None /\
          trace w' =
          (trace w ++ [Connect true; Query true BEGIN]
             ++ map (Query true) (insert_statements m)
             ++ [Query true COMMIT; Release])%list /\
          first_failure (faults w) (S (List.length (trace w))) (committed w)
            (workflow_statements m) = inr (committed w')
    | (Throw e, w') =>
        committed w' = committed w /\
        match mapToDatabaseFormat host inputBody with
        | Throw e0 => e = e0 /\ w' = w
        | Normal m =>
            match fault_now w with
            | Some e0 => e = e0 /\ w' = log (Connect false) w
            | None =>
                exists n e0,
                  first_failure (faults w) (S (List.length (trace w))) (committed w)
                    (workflow_statements m) = inl (n, e0) /\
                  trace w' =
                  (trace w ++ Connect true
                     :: map (Query true) (firstn (S n) (workflow_statements m))
                     ++ [Query true ROLLBACK; Release])%list /\
                  match faults w (List.length (trace w) + n + 2) with
                  | None => e = e0 /\ session w' = None
                  | Some e1 => e = e1 /\ (session w' = None <-> n = O)
                  end
            end
        end
    end.
Proof.
  intros host inputBody w Hs.
  unfold createOrder. unfold mbind at 1. unfold lift.
  destruct (mapToDatabaseFormat host inputBody) as [m | e] eqn:Hmap.
  2: { split; [reflexivity |]. split; reflexivity. }
  rewrite transaction_run.
  destruct (fault_now w) as [e |] eqn:Hf0.
  { split; [reflexivity |]. split; reflexivity. }
  pose proof (createOrder_block m (acquired w) Hs) as Hblock.
  simpl trace in Hblock. rewrite length_snoc in Hblock.
  simpl faults in Hblock. simpl committed in Hblock.
  cbv beta.
  match type of Hblock with
  | match ?b with _ => _ end => destruct b as [[c | e] w1]
  end.
  - destruct Hblock as (hdr & rows & Hc & Hfree & Hhdr & Hrows & Hdb & Hs1 & Ht1 & Hff).
    destruct (mapToDatabaseFormat_items host inputBody m Hmap) as (elems & Hget & Helems).
    exists m, elems, hdr, rows.
    split; [reflexivity |]. split; [exact Hget |]. split; [exact Helems |].
    split; [exact Hc |]. split; [exact Hfree |]. split; [exact Hhdr |].
    split; [exact Hrows |]. split; [exact Hdb |]. split; [exact Hs1 |].
    split; [| rewrite Hff; reflexivity].
    simpl. rewrite Ht1. unfold workflow_statements, insert_statements. simpl.
    rewrite map_app, <- !app_assoc. simpl. rewrite <- !app_assoc. reflexivity.
  - destruct Hblock as (Hc1 & Hf1 & n & Hff & Ht1 & Hsession).
    split; [simpl; rewrite after_rollback_committed; exact Hc1 |].
    exists n, e. split; [exact Hff |]. split.
    { simpl. rewrite after_rollback_trace, Ht1. rewrite <- !app_assoc. reflexivity. }
    assert (Hidx : fault_now w1 = faults w (List.length (trace w) + n + 2)).
    { unfold fault_now. rewrite Hf1, Ht1. f_equal.
      pose proof (first_failure_lt _ _ _ _ _ _ Hff) as Hn.
      rewrite length_app, length_snoc, length_map, length_firstn. lia. }
    unfold rethrown, after_rollback. rewrite Hidx.
    destruct (faults w (List.length (trace w) + n + 2)); simpl.
    + split; [reflexivity | exact Hsession].
    + split; reflexivity.
Qed.

Lemma createOrder_atomic_witness :
  session empty_world = None /\
  exists m hdr rows,
    mapToDatabaseFormat sample_host example_order = Normal m /\
    stored_order m hdr /\
    Forall2 (stored_item (orderId m)) (items m) rows /\
    committed (snd (createOrder sample_host example_order empty_world)) =
    {| Orders := [hdr]; Items := rows |}.
Proof.
  split; [reflexivity |].
  pose proof (createOrder_atomic sample_host example_order empty_world eq_refl) as H.
  vm_compute (createOrder sample_host example_order empty_world) in H.
  destruct H as (m & elems & hdr & rows & Hm & _ & _ & _ & _ & Hhdr & Hrows & Hdb & _).
  exists m, hdr, rows. repeat split; try apply Hhdr; assumption.
Defined.

(** C1 fails as stated when the ROLLBACK is rejected as well. On a
    connection that is lost after it was acquired, BEGIN fails with one error
    and the ROLLBACK of the [catch] block with another; [createOrder] throws
    the second, and the error of the step that failed is lost. *)
Lemma createOrder_loses_the_original_error :
  session connection_lost = None /\
  faults connection_lost 1 = Some (PlainError "Connection terminated unexpectedly") /\
  createOrder sample_host example_order connection_lost =
  (Throw (PlainError "Client has encountered a connection error and is not queryable"),
   {| committed := committed connection_lost;
      session := None;
      checked_out := 0;
      trace := [Connect true; Query true BEGIN; Query true ROLLBACK; Release];
      faults := faults connection_lost |}).
Proof.
  split; [reflexivity |]. split; [reflexivity |]. vm_compute. reflexivity.
Qed.

(** The duplicate key, through the whole workflow: when the order number is
    taken and no call fails otherwise, the header insert is refused with the
    unique-violation error of the store, which is what [createOrder] throws,
    after the rollback; the committed store is unchanged. *)
Lemma createOrder_duplicate_orderId :
  forall (host : Host) (inputBody : jsval) (m : order_data) (w : world),
    session w = None ->
    (forall k, faults w k = None) ->
    mapToDatabaseFormat host inputBody = Normal m ->
    has_order (orderId m) (committed w) = true ->
    exists w',
      createOrder host inputBody w =
      (Throw (DatabaseError "23505" "duplicate key value violates unique constraint"), w') /\
      committed w' = committed w /\
      trace w' =
      (trace w ++ [Connect true; Query true BEGIN; Query true (insert_order_statement m);
                   Query true ROLLBACK; Release])%list.
Proof.
  intros host inputBody m w Hs Hf Hmap Hdup.
  destruct (mapToDatabaseFormat_creationDate host inputBody m Hmap) as (t & _ & Ht).
  unfold createOrder. unfold mbind at 1. unfold lift. rewrite Hmap.
  rewrite transaction_run. unfold fault_now at 1. rewrite Hf.
  unfold mbind at 1. rewrite (begin_step Client (acquired w) Hs).
  unfold fault_now at 1. simpl faults. rewrite Hf.
  set (w2 := in_session (committed (acquired w)) (Query true BEGIN) (acquired w)).
  unfold mbind at 1.
  rewrite (insert_order_step Client m w2 (committed w) eq_refl).
  unfold fault_now at 1. simpl faults. rewrite Hf.
  simpl run. unfold sql_insert_order. rewrite Ht. simpl. rewrite Hdup.
  unfold rethrown, after_rollback, fault_now. simpl faults. rewrite Hf.
  eexists. split; [reflexivity |]. split; [reflexivity |].
  simpl. rewrite <- !app_assoc. reflexivity.
Qed.

Lemma createOrder_duplicate_orderId_example :
  fst (createOrder sample_host example_order example_world) =
  Throw (DatabaseError "23505" "duplicate key value violates unique constraint") /\
  committed (snd (createOrder sample_host example_order example_world)) = example_db.
Proof.
  split; vm_compute; reflexivity.
Qed.

(** [createOrder] does return: when the mapper accepts the payload, the order
    number is free, every product id fits the integer column and no call
    fails, the order is created. *)
Lemma createOrder_succeeds :
  forall (host : Host) (inputBody : jsval) (m : order_data) (w : world),
    session w = None ->
    (forall k, faults w k = None) ->
    mapToDatabaseFormat host inputBody = Normal m ->
    has_order (orderId m) (committed w) = false ->
    Forall (fun it => exists n, int4_in (productId it) = Normal n) (items m) ->
    exists w',
      createOrder host inputBody w =
      (Normal {| created_orderId := orderId m; data := m |}, w').
Proof.
  intros host inputBody m w Hs Hf Hmap Hfree Hids.
  destruct (mapToDatabaseFormat_creationDate host inputBody m Hmap) as (t & _ & Ht).
  unfold createOrder. unfold mbind at 1. unfold lift. rewrite Hmap.
  rewrite transaction_run. unfold fault_now at 1. rewrite Hf.
  unfold mbind at 1. rewrite (begin_step Client (acquired w) Hs).
  unfold fault_now at 1. simpl faults. rewrite Hf.
  set (w2 := in_session (committed (acquired w)) (Query true BEGIN) (acquired w)).
  unfold mbind at 1.
  rewrite (insert_order_step Client m w2 (committed w) eq_refl).
  unfold fault_now at 1. simpl faults. rewrite Hf.
  simpl run. unfold sql_insert_order. rewrite Ht. simpl. rewrite Hfree.
  set (hdr := {| orderid := orderId m; row_value := prepareValue (value m);
                 creationdate := t |}).
  set (db1 := {| Orders := Orders (committed w) ++ [hdr]; Items := Items (committed w) |}).
  set (w3 := in_session db1 (Query true (insert_order_statement m)) w2).
  assert (Hhas : has_order (orderId m) db1 = true).
  { unfold has_order, db1. simpl. rewrite existsb_app. simpl.
    rewrite String.eqb_refl. simpl. apply orb_true_r. }
  unfold mbind at 1.
  pose proof (insert_items_loop Client (orderId m) (items m) w3 db1 eq_refl) as Hloop.
  destruct (for_of (items m)
              (fun item => insertOrderItem Client (orderId m) item ;;; ret tt)%M w3)
    as [[u | e] w4].
  - destruct Hloop as (rows & _ & Hs4 & _ & Hfaults4 & _).
    unfold mbind at 1. rewrite (commit_step Client w4 _ Hs4).
    unfold fault_now. rewrite Hfaults4. simpl faults. rewrite Hf.
    eexists. reflexivity.
  - exfalso. destruct Hloop as (_ & _ & [(k & _ & Hfk) | (it & db' & Hin & Hsame & Hrun)] & _).
    + simpl in Hfk. rewrite Hf in Hfk. discriminate.
    + rewrite Forall_forall in Hids. destruct (Hids it Hin) as (n & Hn).
      simpl in Hrun. unfold sql_insert_item in Hrun. rewrite Hn in Hrun. simpl in Hrun.
      unfold has_order in Hrun, Hhas. rewrite Hsame, Hhas in Hrun. discriminate.
Qed.

(** * Further properties *)

(** ** The exercise functions *)


(** The rounding agrees with the addition of doubles at the first sum of
    the loop that is not a double. *)
Lemma first_rounded_sum :
  round_to_double (9007199326062756 + 189812533) = 9007199515875288 /\
  (number_of_Z 9007199326062756 + number_of_Z 189812533)%float =
  number_of_Z 9007199515875288.
Proof.
  split; vm_compute; reflexivity.
Qed.





Lemma firstn_snoc :
  forall (A : Type) (s : list A) (i : nat) (c : A),
    nth_error s i = Some c -> firstn (S i) s = (firstn i s ++ [c])%list.
Proof.
  intros A s. induction s as [| a r IH]; intros i c H.
  - destruct i; discriminate.
  - destruct i as [| i]; simpl in *.
    + inversion H. reflexivity.
    + f_equal. apply IH. exact H.
Qed.

Lemma inverterPalavra_loop_rev :
  forall (palavra : list code_unit) (i : nat) (result : list code_unit),
    (i <= List.length palavra)%nat ->
    inverterPalavra_loop i palavra result = (result ++ rev (firstn i palavra))%list.
Proof.
  intros palavra. induction i as [| i IH]; intros result Hi.
  - simpl. rewrite app_nil_r. reflexivity.
  - cbn [inverterPalavra_loop]. rewrite IH by lia. unfold charAt.
    destruct (nth_error palavra i) as [c |] eqn:Hc.
    + rewrite (firstn_snoc _ _ _ _ Hc), rev_app_distr, <- app_assoc. reflexivity.
    + apply nth_error_None in Hc. lia.
Qed.

(** X2: [inverterPalavra] returns the code units of its argument in reverse
    order, so that applying it twice gives the argument back. *)
Theorem inverterPalavra_reverses :
  forall palavra : list code_unit,
    inverterPalavra palavra = rev palavra /\
    inverterPalavra (inverterPalavra palavra) = palavra.
Proof.
  assert (H : forall s, inverterPalavra s = rev s).
  { intros s. unfold inverterPalavra.
    rewrite inverterPalavra_loop_rev by lia. rewrite firstn_all. reflexivity. }
  intros palavra. split; [apply H |]. rewrite !H. apply rev_involutive.
Qed.

(** ** The mapper: the order number and the creation date *)

Lemma append_empty_r : forall s : string, s ++ "" = s.
Proof.
  induction s as [| a s IH]; simpl; [reflexivity | rewrite IH; reflexivity].
Qed.

Lemma split_aux_first :
  forall (sep : ascii) (s cur : string),
    exists p rest,
      nth 0 (split_aux sep cur s) "" = cur ++ p /\
      s = p ++ rest /\
      (rest = "" \/ exists r, rest = String sep r) /\
      includes (String sep "") p = false.
Proof.
  intros sep s. induction s as [| c r IH]; intros cur.
  - exists "", "". simpl. rewrite append_empty_r. auto.
  - simpl. destruct (Ascii.eqb c sep) eqn:Hc.
    + apply Ascii.eqb_eq in Hc. subst c.
      exists "", (String sep r). simpl. rewrite append_empty_r. eauto 6.
    + destruct (IH (cur ++ String c "")) as (p & rest & Hfirst & Hs & Hrest & Hno).
      exists (String c p), rest. repeat split.
      * rewrite Hfirst, append_assoc. reflexivity.
      * simpl. rewrite Hs. reflexivity.
      * exact Hrest.
      * simpl. rewrite Ascii.eqb_sym, Hc. simpl. simpl in Hno. exact Hno.
Qed.

(** X3: the orderId of a mapped order is the order number of the payload up
    to its first hyphen: it holds no hyphen, and the order number is the
    orderId followed by nothing or by a hyphen and the rest. An order number
    without hyphen is taken whole. *)
Theorem mapToDatabaseFormat_orderId :
  forall (host : Host) (inputBody : jsval) (m : order_data),
    mapToDatabaseFormat host inputBody = Normal m ->
    exists numeroPedido rest,
      get inputBody "numeroPedido" = Normal (VStr numeroPedido) /\
      numeroPedido = orderId m ++ rest /\
      (rest = "" \/ exists r, rest = String "-" r) /\
      includes "-" (orderId m) = false /\
      (includes "-" numeroPedido = false -> orderId m = numeroPedido).
Proof.
  intros host inputBody m H. unfold mapToDatabaseFormat in H.
  apply cbind_Normal_inv in H. destruct H as (np & Hget & H).
  apply cbind_Normal_inv in H. destruct H as (parts & Hsplit & H).
  repeat (apply cbind_Normal_inv in H; destruct H as (? & _ & H)).
  inversion H; subst; clear H. simpl.
  destruct np; try discriminate Hsplit. simpl in Hsplit. inversion Hsplit; subst parts.
  destruct (split_aux_first "-" s "") as (p & rest & Hfirst & Hs & Hrest & Hno).
  unfold split. rewrite Hfirst. simpl.
  exists s, rest. repeat split; auto.
  intros Hnone. destruct Hrest as [Hrest | (r & Hrest)].
  - subst rest. rewrite Hs. rewrite append_empty_r. reflexivity.
  - exfalso. subst rest. rewrite Hs in Hnone. clear - Hnone.
    induction p as [| a p IH]; simpl in Hnone.
    + discriminate.
    + apply orb_false_iff in Hnone. destruct Hnone as [_ Hnone]. apply IH. exact Hnone.
Qed.

Lemma mapToDatabaseFormat_orderId_witness :
  mapToDatabaseFormat sample_host example_order =
  Normal {| orderId := "1001"; value := VNum 99.5;
            creationDate := "2024-01-01T00:00:00.000Z";
            items := [{| productId := 7; quantity := VNum 2; price := VNum 10 |}] |} /\
  exists rest, "1001-01" = "1001" ++ rest /\ (rest = "" \/ exists r, rest = String "-" r).
Proof.
  split; [vm_compute; reflexivity |].
  destruct (mapToDatabaseFormat_orderId sample_host example_order _ eq_refl)
    as (np & rest & Hget & Hnp & Hrest & _).
  injection Hget as Hsame. rewrite <- Hsame in Hnp.
  exists rest. split; [exact Hnp | exact Hrest].
Defined.

Lemma mapped_date :
  forall (host : Host) (inputBody : jsval) (m : order_data),
    mapToDatabaseFormat host inputBody = Normal m ->
    exists t, Z.abs t <= 8640000000000000 /\ creationDate m = iso_string t.
Proof.
  intros host inputBody m H. unfold mapToDatabaseFormat in H.
  repeat (apply cbind_Normal_inv in H; destruct H as (? & ? & H)).
  inversion H; subst; clear H. simpl.
  match goal with
  | Hiso : toISOString (new_Date host ?v) = Normal _ |- _ =>
      destruct (new_Date host v) as [t |] eqn:Hdate; [| discriminate Hiso];
      inversion Hiso; subst; clear Hiso
  end.
  exists t. split; [eapply new_Date_clipped; exact Hdate | reflexivity].
Qed.

(** X4: the creation date of a mapped order is an ISO-8601 timestamp in UTC,
    and it is normal: parsing it again as a date and writing it out gives the
    same text, on every host. *)
Theorem mapToDatabaseFormat_creationDate_normal :
  forall (host : Host) (inputBody : jsval) (m : order_data),
    mapToDatabaseFormat host inputBody = Normal m ->
    is_iso8601 (creationDate m) = true /\
    toISOString (new_Date host (VStr (creationDate m))) = Normal (creationDate m).
Proof.
  intros host inputBody m H.
  destruct (mapped_date host inputBody m H) as (t & Ht & Hdate).
  rewrite Hdate. split; [apply iso_string_is_iso8601 |].
  simpl. unfold Date_parse. rewrite iso_parse_iso_string by exact Ht.
  simpl. destruct (Z.leb_spec0 (Z.abs t) 8640000000000000); [reflexivity | contradiction].
Qed.

Lemma mapToDatabaseFormat_creationDate_normal_witness :
  mapToDatabaseFormat sample_host example_order =
  Normal {| orderId := "1001"; value := VNum 99.5;
            creationDate := "2024-01-01T00:00:00.000Z";
            items := [{| productId := 7; quantity := VNum 2; price := VNum 10 |}] |} /\
  is_iso8601 "2024-01-01T00:00:00.000Z" = true /\
  toISOString (new_Date sample_host (VStr "2024-01-01T00:00:00.000Z")) =
  Normal "2024-01-01T00:00:00.000Z".
Proof.
  split; [vm_compute; reflexivity |].
  exact (mapToDatabaseFormat_creationDate_normal sample_host example_order _ eq_refl).
Defined.

(** ** Single driver calls *)

Lemma select_order_step :
  forall (id : string) (w : world),
    findOrderById id w =
    match fault_now w with
    | Some e => (Throw e, log (Query false (SelectOrderById id)) w)
    | None =>
        let found := filter (fun r => String.eqb (orderid r) id) (Orders (committed w)) in
        (Normal {| rows := found; rowCount := List.length found |},
         log (Query false (SelectOrderById id)) w)
    end.
Proof.
  intros id w. unfold findOrderById, query. destruct (fault_now w); reflexivity.
Qed.

Lemma select_items_step :
  forall (id : string) (w : world),
    findItemsByOrderId id w =
    match fault_now w with
    | Some e => (Throw e, log (Query false (SelectItemsByOrderId id)) w)
    | None =>
        let found := filter (fun r => String.eqb (item_orderid r) id) (Items (committed w)) in
        (Normal {| rows := found; rowCount := List.length found |},
         log (Query false (SelectItemsByOrderId id)) w)
    end.
Proof.
  intros id w. unfold findItemsByOrderId, query. destruct (fault_now w); reflexivity.
Qed.

Lemma format_response_total :
  forall (host : Host) (orderRow : order_row) (itemRows : list item_row),
    formatOrderResponse host orderRow itemRows =
    Normal (VObj [("orderId", VStr (orderid orderRow));
                  ("value", VNum (parseFloat host (row_value orderRow)));
                  ("creationDate", VStr (iso_string (creationdate orderRow)));
                  ("items", VArr (map (item_response host) itemRows))]).
Proof. reflexivity. Qed.

(** ** Reading never writes *)

(** X5: [getOrderDetails] leaves the world as it found it, whatever the id
    and whichever of its queries fails: the committed data, the transaction
    state of the client and the number of connections checked out are the
    same afterwards. *)
Theorem getOrderDetails_reads_only :
  forall (host : Host) (orderId : string) (w : world),
    committed (snd (getOrderDetails host orderId w)) = committed w /\
    session (snd (getOrderDetails host orderId w)) = session w /\
    checked_out (snd (getOrderDetails host orderId w)) = checked_out w.
Proof.
  intros host id w. unfold getOrderDetails, mbind.
  rewrite select_order_step. destruct (fault_now w); [simpl; auto |].
  cbv zeta. cbn [rows].
  destruct (filter (fun r => String.eqb (orderid r) id) (Orders (committed w)))
    as [| orderRow rest]; [simpl; auto |].
  rewrite select_items_step.
  destruct (fault_now _); simpl; auto.
Qed.

(** ** Listing the orders *)

Lemma insert_desc_perm :
  forall (r : order_row) (l : list order_row), Permutation (r :: l) (insert_desc r l).
Proof.
  intros r l. induction l as [| x t IH]; simpl; [apply Permutation_refl |].
  destruct (creationdate x <=? creationdate r); [apply Permutation_refl |].
  apply perm_trans with (x :: r :: t); [apply perm_swap | apply perm_skip; exact IH].
Qed.

Lemma order_by_creationDate_desc_perm :
  forall l : list order_row, Permutation l (order_by_creationDate_desc l).
Proof.
  induction l as [| r t IH]; simpl; [apply perm_nil |].
  apply perm_trans with (r :: order_by_creationDate_desc t);
    [apply perm_skip; exact IH | apply insert_desc_perm].
Qed.

Lemma insert_desc_sorted :
  forall (r : order_row) (l : list order_row),
    StronglySorted newer_first l -> StronglySorted newer_first (insert_desc r l).
Proof.
  intros r l H. induction H as [| x t Ht IH Hx]; simpl.
  - constructor; constructor.
  - destruct (Z.leb_spec0 (creationdate x) (creationdate r)) as [Hle | Hgt].
    + constructor; [constructor; assumption |].
      constructor; [exact Hle |].
      rewrite Forall_forall in *. intros y Hy. unfold newer_first in *.
      specialize (Hx y Hy). lia.
    + constructor; [exact IH |].
      rewrite Forall_forall in *. intros y Hy.
      apply (Permutation_in _ (Permutation_sym (insert_desc_perm r t))) in Hy.
      destruct Hy as [Hy | Hy]; [subst y; unfold newer_first; lia | apply Hx; exact Hy].
Qed.

Lemma order_by_creationDate_desc_sorted :
  forall l : list order_row, StronglySorted newer_first (order_by_creationDate_desc l).
Proof.
  induction l as [| r t IH]; simpl; [constructor | apply insert_desc_sorted; exact IH].
Qed.

Lemma cmap_order_summary :
  forall (host : Host) (l : list order_row),
    cmap (OrderService.order_summary host) l = Normal (map (summary_of host) l).
Proof.
  intros host l. induction l as [| r t IH]; simpl; [reflexivity |].
  rewrite IH. reflexivity.
Qed.

(** X6: when its query does not fail, [listAllOrders] returns one entry
    {orderId, value, creationDate} for every header row of the store and no
    other, newest first, the value as a number and the date as its ISO-8601
    text, without the items; the store is left as it was. When the query
    fails, that error is thrown. *)
Theorem listAllOrders_lists_every_order :
  forall (host : Host) (w : world),
    match fault_now w with
    | Some e => OrderService.listAllOrders host w = (Throw e, w)
    | None =>
        exists found,
          Permutation (Orders (committed w)) found /\
          StronglySorted newer_first found /\
          OrderService.listAllOrders host w =
          (Normal (VArr (map (summary_of host) found)), w)
    end.
Proof.
  intros host w. unfold OrderService.listAllOrders, mbind, findAllOrders.
  destruct (fault_now w); [reflexivity |].
  exists (order_by_creationDate_desc (Orders (committed w))).
  split; [apply order_by_creationDate_desc_perm |].
  split; [apply order_by_creationDate_desc_sorted |].
  cbn [rows]. unfold lift. rewrite cmap_order_summary. reflexivity.
Qed.

(** ** Updating the header *)

Lemma update_header_step :
  forall (c : client) (id : string) (m : order_data) (w : world) (db : database),
    session w = Some db ->
    updateOrderHeader c id m w =
    match fault_now w with
    | Some e => (Throw e, log (Query true (UpdateOrder (value m) (creationDate m) id)) w)
    | None =>
        match run (UpdateOrder (value m) (creationDate m) id) db with
        | Normal (db', r) =>
            (Normal r, in_session db' (Query true (UpdateOrder (value m) (creationDate m) id)) w)
        | Throw e =>
            (Throw e, log (Query true (UpdateOrder (value m) (creationDate m) id)) w)
        end
    end.
Proof.
  intros c id m w db Hs. unfold updateOrderHeader, client_query, visible.
  rewrite Hs. destruct (fault_now w); [reflexivity |].
  destruct (run (UpdateOrder (value m) (creationDate m) id) db) as [[db' r] | e];
    [| reflexivity].
  simpl. rewrite Hs. reflexivity.
Qed.

(** X7: [updateOrder], when the mapper accepts the payload and no call
    fails: for an id that has a header row it commits and returns [true],
    and the header rows of that id now hold the value of the payload and its
    creation date, while their orderId, every other header row and all the
    item rows are as before, whatever order number and items the payload
    carried. For an id without header row it rolls back, leaves the store as
    it was and throws; what it throws is the ReferenceError for the
    identifier [ResourceNotFoundException], which the service module does
    not bind. *)
Theorem updateOrder_behaviour :
  forall (host : Host) (id : string) (inputBody : jsval) (m : order_data) (w : world),
    session w = None ->
    (forall k, faults w k = None) ->
    mapToDatabaseFormat host inputBody = Normal m ->
    exists t w',
      creationDate m = iso_string t /\
      updateOrder host id inputBody w =
      (if has_order id (committed w) then Normal true
       else Throw (ReferenceError "ResourceNotFoundException is not defined"), w') /\
      Items (committed w') = Items (committed w) /\
      Orders (committed w') =
      map (fun r => if String.eqb (orderid r) id
                    then {| orderid := orderid r;
                            row_value := prepareValue (value m);
                            creationdate := t |}
                    else r) (Orders (committed w)) /\
      session w' = None /\
      trace w' =
      (trace w ++ [Connect true; Query true BEGIN; Query false (SelectOrderById id)]
         ++ (if has_order id (committed w)
             then [Query true (UpdateOrder (value m) (creationDate m) id);
                   Query true COMMIT]
             else [Query true ROLLBACK])
         ++ [Release])%list.
Proof.
  intros host id inputBody m w Hs Hf Hmap.
  destruct (mapToDatabaseFormat_creationDate host inputBody m Hmap) as (t & Hdate & Ht).
  exists t.
  unfold updateOrder. unfold mbind at 1. unfold lift. rewrite Hmap.
  rewrite transaction_run. unfold fault_now at 1. rewrite Hf.
  unfold mbind at 1. rewrite (begin_step Client (acquired w) Hs).
  unfold fault_now at 1. simpl faults. rewrite Hf.
  set (w2 := in_session (committed (acquired w)) (Query true BEGIN) (acquired w)).
  unfold mbind at 1. rewrite select_order_step.
  unfold fault_now at 1. simpl faults. rewrite Hf. cbv zeta. cbn [rows].
  change (Orders (committed w2)) with (Orders (committed w)).
  unfold has_order.
  destruct (existsb (fun r => String.eqb (orderid r) id) (Orders (committed w))) eqn:Hex.
  - destruct (filter_some _ _ _ Hex) as (a & rest & Hfilter). rewrite Hfilter.
    set (w3 := log (Query false (SelectOrderById id)) w2).
    unfold mbind at 1.
    rewrite (update_header_step Client id m w3 (committed w) eq_refl).
    unfold fault_now at 1. simpl faults. rewrite Hf.
    simpl run. unfold sql_update_order. rewrite Ht. simpl.
    unfold mbind at 1.
    match goal with
    | |- context [client_query Client COMMIT ?w4] =>
        rewrite (commit_step Client w4 _ eq_refl)
    end.
    unfold fault_now at 1. simpl faults. rewrite Hf.
    eexists. split; [exact Hdate |]. split; [reflexivity |]. simpl.
    repeat split. rewrite <- !app_assoc. reflexivity.
  - rewrite (filter_none _ _ _ Hex).
    simpl. unfold rethrown, after_rollback, fault_now. simpl faults. rewrite Hf.
    eexists. split; [exact Hdate |]. split; [reflexivity |]. simpl.
    split; [reflexivity |]. split.
    + symmetry.
      clear - Hex. induction (Orders (committed w)) as [| r l IH]; simpl in *;
        [reflexivity |].
      apply orb_false_iff in Hex. destruct Hex as [Hr Hl].
      rewrite Hr, IH by exact Hl. reflexivity.
    + split; [reflexivity |]. rewrite <- !app_assoc. reflexivity.
Qed.

Lemma updateOrder_behaviour_witness :
  session example_world = None /\
  mapToDatabaseFormat sample_host example_order =
  Normal {| orderId := "1001"; value := VNum 99.5;
            creationDate := "2024-01-01T00:00:00.000Z";
            items := [{| productId := 7; quantity := VNum 2; price := VNum 10 |}] |} /\
  exists w',
    updateOrder sample_host "1001" example_order example_world = (Normal true, w') /\
    Items (committed w') = Items example_db /\
    session w' = None.
Proof.
  split; [reflexivity |]. split; [vm_compute; reflexivity |].
  destruct (updateOrder_behaviour sample_host "1001" example_order _ example_world
              eq_refl (fun _ => eq_refl) eq_refl)
    as (t & w' & _ & Hrun & Hitems & _ & Hs & _).
  exists w'. split; [exact Hrun |]. split; [exact Hitems | exact Hs].
Defined.

(** X8: a header update needs the whole order payload: when the body lacks
    the order number, or has it and a date but lacks the items array,
    [updateOrder] throws the TypeError of the mapper and makes no call to the
    driver at all. *)
Theorem updateOrder_needs_number_and_items :
  forall (host : Host) (id : string) (props : list (string * jsval)) (w : world),
    lookup "numeroPedido" props = VUndef \/
    (exists np s t,
        lookup "numeroPedido" props = VStr np /\
        lookup "dataCriacao" props = VStr s /\
        Date_parse host s = Some t /\
        lookup "items" props = VUndef) ->
    exists message,
      updateOrder host id (VObj props) w = (Throw (TypeError message), w).
Proof.
  intros host id props w [Hnp | (np & s & t & Hnp & Hs & Ht & Hitems)];
    unfold updateOrder; unfold mbind at 1; unfold lift, mapToDatabaseFormat; simpl;
    rewrite Hnp; simpl.
  - eexists. reflexivity.
  - rewrite Hs. simpl. rewrite Ht. simpl. rewrite Hitems. simpl.
    eexists. reflexivity.
Qed.

Lemma updateOrder_needs_number_and_items_witness :
  lookup "numeroPedido" [("valorTotal", VNum 120); ("dataCriacao", VStr "2024-02-01")]
  = VUndef /\
  exists message,
    updateOrder sample_host "1001"
      (VObj [("valorTotal", VNum 120); ("dataCriacao", VStr "2024-02-01")]) example_world
    = (Throw (TypeError message), example_world).
Proof.
  split; [reflexivity |].
  apply (updateOrder_needs_number_and_items sample_host "1001"
           [("valorTotal", VNum 120); ("dataCriacao", VStr "2024-02-01")] example_world).
  left. reflexivity.
Defined.

(** ** Updating an item of an order that is not there *)

(** X9: [updateItemOrder] with both values present, for an id that has no
    header row: the lookup is its only call; it acquires no connection, opens
    no transaction, leaves the store as it was, and throws. What it throws is
    the ReferenceError for the unbound identifier
    [ResourceNotFoundException]. *)
Theorem updateItemOrder_order_missing :
  forall (host : Host) (orderId : string) (productId : float)
         (props : list (string * jsval)) (w : world),
    fault_now w = None ->
    is_undefined (js_or (lookup "quantidadeItem" props) (lookup "quantity" props)) = false ->
    is_undefined (js_or (lookup "valorItem" props) (lookup "price" props)) = false ->
    has_order orderId (committed w) = false ->
    updateItemOrder host orderId productId (VObj props) w =
    (Throw (ReferenceError "ResourceNotFoundException is not defined"),
     log (Query false (SelectOrderById orderId)) w).
Proof.
  intros host id pid props w Hf Hq Hp Hmissing.
  unfold updateItemOrder. simpl. unfold mbind at 1 2 3 4. simpl.
  rewrite Hq, Hp. simpl.
  unfold mbind at 1. rewrite select_order_step, Hf. cbv zeta. cbn [rows].
  rewrite (filter_none _ _ _ Hmissing). reflexivity.
Qed.

Lemma updateItemOrder_order_missing_witness :
  fault_now example_world = None /\
  has_order "1002" (committed example_world) = false /\
  updateItemOrder sample_host "1002" 7 new_quantity_and_price example_world =
  (Throw (ReferenceError "ResourceNotFoundException is not defined"),
   log (Query false (SelectOrderById "1002")) example_world).
Proof.
  split; [reflexivity |]. split; [reflexivity |].
  exact (updateItemOrder_order_missing sample_host "1002" 7
           [("quantity", VNum 3); ("price", VNum 5)] example_world
           eq_refl eq_refl eq_refl eq_refl).
Defined.

(** ** Creating, then reading or deleting *)

Lemma createOrder_commits :
  forall (host : Host) (inputBody : jsval) (m : order_data) (w : world),
    session w = None ->
    (forall k, faults w k = None) ->
    mapToDatabaseFormat host inputBody = Normal m ->
    has_order (orderId m) (committed w) = false ->
    Forall (fun it => exists n, int4_in (productId it) = Normal n) (items m) ->
    exists t rows w',
      creationDate m = iso_string t /\
      Forall2 (stored_item (orderId m)) (items m) rows /\
      createOrder host inputBody w =
      (Normal {| created_orderId := orderId m; data := m |}, w') /\
      committed w' =
      {| Orders := Orders (committed w)
                     ++ [{| orderid := orderId m; row_value := prepareValue (value m);
                            creationdate := t |}];
         Items := Items (committed w) ++ rows |} /\
      session w' = None /\
      (forall k, faults w' k = None).
Proof.
  intros host inputBody m w Hs Hf Hmap Hfree Hids.
  destruct (mapToDatabaseFormat_creationDate host inputBody m Hmap) as (t & Hdate & Ht).
  unfold createOrder. unfold mbind at 1. unfold lift. rewrite Hmap.
  rewrite transaction_run. unfold fault_now at 1. rewrite Hf.
  unfold mbind at 1. rewrite (begin_step Client (acquired w) Hs).
  unfold fault_now at 1. simpl faults. rewrite Hf.
  set (w2 := in_session (committed (acquired w)) (Query true BEGIN) (acquired w)).
  unfold mbind at 1.
  rewrite (insert_order_step Client m w2 (committed w) eq_refl).
  unfold fault_now at 1. simpl faults. rewrite Hf.
  simpl run. unfold sql_insert_order. rewrite Ht. simpl. rewrite Hfree.
  set (hdr := {| orderid := orderId m; row_value := prepareValue (value m);
                 creationdate := t |}).
  set (db1 := {| Orders := Orders (committed w) ++ [hdr]; Items := Items (committed w) |}).
  set (w3 := in_session db1 (Query true (insert_order_statement m)) w2).
  assert (Hhas : has_order (orderId m) db1 = true).
  { unfold has_order, db1. simpl. rewrite existsb_app. simpl.
    rewrite String.eqb_refl. simpl. apply orb_true_r. }
  unfold mbind at 1.
  pose proof (insert_items_loop Client (orderId m) (items m) w3 db1 eq_refl) as Hloop.
  destruct (for_of (items m)
              (fun item => insertOrderItem Client (orderId m) item ;;; ret tt)%M w3)
    as [[u | e] w4].
  - destruct Hloop as (rows & Hrows & Hs4 & _ & Hfaults4 & _).
    unfold mbind at 1. rewrite (commit_step Client w4 _ Hs4).
    unfold fault_now. rewrite Hfaults4. simpl faults. rewrite Hf.
    exists t, rows. eexists.
    split; [exact Hdate |]. split; [exact Hrows |]. split; [reflexivity |].
    simpl. split; [reflexivity |]. split; [reflexivity |].
    intros k. simpl. apply Hf.
  - exfalso. destruct Hloop as (_ & _ & [(k & _ & Hfk) | (it & db' & Hin & Hsame & Hrun)] & _).
    + simpl in Hfk. rewrite Hf in Hfk. discriminate.
    + rewrite Forall_forall in Hids. destruct (Hids it Hin) as (n & Hn).
      simpl in Hrun. unfold sql_insert_item in Hrun. rewrite Hn in Hrun. simpl in Hrun.
      unfold has_order in Hrun, Hhas. rewrite Hsame, Hhas in Hrun. discriminate.
Qed.

Lemma no_items_without_order :
  forall (db : database) (id : string),
    referential db ->
    has_order id db = false ->
    existsb (fun r => String.eqb (item_orderid r) id) (Items db) = false.
Proof.
  intros db id Href Hfree.
  destruct (existsb (fun r => String.eqb (item_orderid r) id) (Items db)) eqn:Hex;
    [| reflexivity].
  apply existsb_exists in Hex. destruct Hex as (r & Hin & Heq).
  apply String.eqb_eq in Heq. rewrite <- Heq, (Href r Hin) in Hfree. discriminate.
Qed.

Lemma stored_items_of_order :
  forall (id : string) (its : list item_data) (rows : list item_row),
    Forall2 (stored_item id) its rows ->
    filter (fun r => String.eqb (item_orderid r) id) rows = rows /\
    filter (fun r => negb (String.eqb (item_orderid r) id)) rows = [].
Proof.
  intros id its rows H. induction H as [| it r its rows Hr _ IH]; simpl; [auto |].
  destruct Hr as (Hid & _). rewrite Hid, String.eqb_refl. simpl.
  destruct IH as [IH1 IH2]. rewrite IH1, IH2. auto.
Qed.



Lemma delete_order_step :
  forall (id : string) (w : world),
    fault_now w = None ->
    deleteOrderHeader id w =
    (Normal {| rows := [];
               rowCount := List.length
                             (filter (fun r => String.eqb (orderid r) id)
                                (Orders (committed w))) |},
     {| committed := fst (match sql_delete_order id (committed w) with
                          | Normal p => p
                          | Throw _ => (committed w, no_rows)
                          end);
        session := session w; checked_out := checked_out w;
        trace := trace w ++ [Query false (DeleteOrder id)]; faults := faults w |}).
Proof.
  intros id w Hf. unfold deleteOrderHeader, query. rewrite Hf. reflexivity.
Qed.

(** X11: deleting undoes creating. When the store satisfies its foreign
    key, the order number is free, every product id fits the integer column
    and no call fails, [createOrder] followed by [deleteOrder] on the new
    orderId returns normally and leaves the committed store exactly as it was
    before the order was created: the header and, by the cascade, every item
    row of the order are gone, and nothing else is. *)
Theorem createOrder_then_deleteOrder :
  forall (host : Host) (inputBody : jsval) (m : order_data) (w : world),
    session w = None ->
    (forall k, faults w k = None) ->
    referential (committed w) ->
    mapToDatabaseFormat host inputBody = Normal m ->
    has_order (orderId m) (committed w) = false ->
    Forall (fun it => exists n, int4_in (productId it) = Normal n) (items m) ->
    exists w1 w2,
      createOrder host inputBody w =
      (Normal {| created_orderId := orderId m; data := m |}, w1) /\
      deleteOrder (orderId m) w1 = (Normal tt, w2) /\
      committed w2 = committed w.
Proof.
  intros host inputBody m w Hs Hf Href Hmap Hfree Hids.
  destruct (createOrder_commits host inputBody m w Hs Hf Hmap Hfree Hids)
    as (t & rs & w1 & _ & Hrows & Hrun & Hdb & _ & Hf1).
  exists w1. eexists. split; [exact Hrun |].
  unfold deleteOrder, mbind. rewrite delete_order_step by (unfold fault_now; apply Hf1).
  cbn [rowCount]. rewrite Hdb. cbn [Orders].
  rewrite filter_app, (filter_none _ _ _ Hfree). simpl.
  rewrite String.eqb_refl. simpl.
  split; [reflexivity |]. simpl.
  unfold sql_delete_order. simpl.
  rewrite !filter_app, (filter_none _ _ _ Hfree). simpl.
  rewrite String.eqb_refl. simpl.
  rewrite (filter_all _ _ _ Hfree), app_nil_r.
  rewrite (filter_all _ _ _ (no_items_without_order _ _ Href Hfree)).
  destruct (stored_items_of_order _ _ _ Hrows) as [_ Hgone]. rewrite Hgone.
  rewrite app_nil_r. destruct (committed w); reflexivity.
Qed.

Lemma createOrder_then_deleteOrder_witness :
  session example_world = None /\
  referential (committed example_world) /\
  has_order "1002" (committed example_world) = false /\
  exists w1 w2,
    fst (createOrder sample_host
           (VObj [("numeroPedido", VStr "1002");
                  ("dataCriacao", VStr "2024-02-01");
                  ("valorTotal", VNum 5);
                  ("items", VArr [VObj [("idItem", VStr "7");
                                        ("quantidadeItem", VNum 1);
                                        ("valorItem", VNum 5)]])]) example_world) =
    Normal {| created_orderId := "1002";
              data := {| orderId := "1002"; value := VNum 5;
                         creationDate := "2024-02-01T00:00:00.000Z";
                         items := [{| productId := 7; quantity := VNum 1;
                                      price := VNum 5 |}] |} |} /\
    snd (createOrder sample_host
           (VObj [("numeroPedido", VStr "1002");
                  ("dataCriacao", VStr "2024-02-01");
                  ("valorTotal", VNum 5);
                  ("items", VArr [VObj [("idItem", VStr "7");
                                        ("quantidadeItem", VNum 1);
                                        ("valorItem", VNum 5)]])]) example_world) = w1 /\
    deleteOrder "1002" w1 = (Normal tt, w2) /\
    committed w2 = example_db.
Proof.
  assert (Href : referential (committed example_world)).
  { intros r [Hr | []]. subst r. reflexivity. }
  split; [reflexivity |]. split; [exact Href |]. split; [reflexivity |].
  assert (Hids : Forall (fun it => exists n, int4_in (productId it) = Normal n)
                    [{| productId := 7; quantity := VNum 1; price := VNum 5 |}]).
  { constructor; [exists 7%Z; reflexivity | constructor]. }
  destruct (createOrder_then_deleteOrder sample_host
              (VObj [("numeroPedido", VStr "1002");
                     ("dataCriacao", VStr "2024-02-01");
                     ("valorTotal", VNum 5);
                     ("items", VArr [VObj [("idItem", VStr "7");
                                           ("quantidadeItem", VNum 1);
                                           ("valorItem", VNum 5)]])])
              {| orderId := "1002"; value := VNum 5;
                 creationDate := "2024-02-01T00:00:00.000Z";
                 items := [{| productId := 7; quantity := VNum 1; price := VNum 5 |}] |}
              example_world
              eq_refl (fun _ => eq_refl) Href eq_refl eq_refl
              Hids)
    as (w1 & w2 & Hrun & Hdel & Hdb).
  exists w1, w2. rewrite Hrun. repeat split; assumption.
Defined.

(** ** The handlers *)

(** X12: [createNewOrder] on a payload whose order number is taken, when no
    call fails: the answer is 409 with the error of the store as [error],
    and the committed store is unchanged. *)
Theorem createNewOrder_conflict :
  forall (host : Host) (reqBody : jsval) (m : order_data) (w : world),
    session w = None ->
    (forall k, faults w k = None) ->
    mapToDatabaseFormat host reqBody = Normal m ->
    has_order (orderId m) (committed w) = true ->
    exists w',
      OrderController.createNewOrder host reqBody w =
      (Normal {| status := 409;
                 body := Some (VObj [("message", VStr "Erro: O número de pedido já existe.");
                                     ("error",
                                      VStr "duplicate key value violates unique constraint")]) |},
       w') /\
      committed w' = committed w.
Proof.
  intros host reqBody m w Hs Hf Hmap Hdup.
  destruct (createOrder_duplicate_orderId host reqBody m w Hs Hf Hmap Hdup)
    as (w' & Hrun & Hdb & _).
  exists w'. split; [| exact Hdb].
  unfold OrderController.createNewOrder, try_catch. unfold mbind at 1.
  rewrite Hrun. reflexivity.
Qed.

Lemma createNewOrder_conflict_witness :
  session example_world = None /\
  has_order "1001" (committed example_world) = true /\
  exists w',
    OrderController.createNewOrder sample_host example_order example_world =
    (Normal {| status := 409;
               body := Some (VObj [("message", VStr "Erro: O número de pedido já existe.");
                                   ("error",
                                    VStr "duplicate key value violates unique constraint")]) |},
     w') /\
    committed w' = example_db.
Proof.
  split; [reflexivity |]. split; [reflexivity |].
  exact (createNewOrder_conflict sample_host example_order _ example_world
           eq_refl (fun _ => eq_refl) eq_refl eq_refl).
Defined.

Lemma cmap_transformItem_error :
  forall (host : Host) (l : list jsval) (e : error),
    cmap (transformItem host) l = Throw e ->
    e = TypeError "Cannot read properties of undefined (reading 'idItem')" \/
    e = TypeError "Cannot read properties of null (reading 'idItem')".
Proof.
  intros host l e. induction l as [| a r IH]; simpl; [discriminate |].
  destruct (transformItem host a) as [it | e'] eqn:Ha.
  - destruct (cmap (transformItem host) r); [discriminate |].
    intros H. inversion H; subst. apply IH. reflexivity.
  - intros H. inversion H; subst. destruct a; simpl in Ha; inversion Ha; auto.
Qed.

(** Whatever the mapper throws is a TypeError or a RangeError of the
    language; it has no [code], and its message does not say "inválidos". *)
Lemma mapper_error_is_internal :
  forall (host : Host) (inputBody : jsval) (e : error),
    mapToDatabaseFormat host inputBody = Throw e ->
    error_code e = VUndef /\ OrderController.says_invalid e = false.
Proof.
  intros host inputBody e H. unfold mapToDatabaseFormat in H.
  destruct (get inputBody "numeroPedido") as [np |] eqn:Hnp; simpl in H.
  2: { destruct inputBody; simpl in Hnp; inversion Hnp; subst;
       inversion H; subst; split; reflexivity. }
  destruct (call_split np "-") as [parts |] eqn:Hsplit; simpl in H.
  2: { destruct np; simpl in Hsplit; inversion Hsplit; subst;
       inversion H; subst; split; reflexivity. }
  destruct (get inputBody "dataCriacao") as [dc |] eqn:Hdc; simpl in H.
  2: { destruct inputBody; simpl in Hdc; inversion Hdc; subst;
       inversion H; subst; split; reflexivity. }
  destruct (toISOString (new_Date host dc)) as [iso |] eqn:Hiso; simpl in H.
  2: { destruct (new_Date host dc); simpl in Hiso; inversion Hiso; subst.
       inversion H; subst; split; reflexivity. }
  destruct (get inputBody "items") as [its |] eqn:Hits; simpl in H.
  2: { destruct inputBody; simpl in Hits; inversion Hits; subst;
       inversion H; subst; split; reflexivity. }
  destruct (call_map its (transformItem host)) as [tis |] eqn:Hmap; simpl in H.
  2: { inversion H; subst.
       destruct its; simpl in Hmap; try (inversion Hmap; subst; split; reflexivity).
       destruct (cmap_transformItem_error _ _ _ Hmap) as [-> | ->]; split; reflexivity. }
  destruct (get inputBody "valorTotal") as [vt |] eqn:Hvt; simpl in H.
  2: { destruct inputBody; simpl in Hvt; inversion Hvt; subst;
       inversion H; subst; split; reflexivity. }
  discriminate.
Qed.

(** X13: a payload that the mapper refuses (a missing order number, date or
    items array, a date that is no date, a null item) is answered by
    [createNewOrder] with 500, never with 400, the message of the error as
    [error]; nothing was asked of the driver. *)
Theorem createNewOrder_mapper_failure :
  forall (host : Host) (reqBody : jsval) (e : error) (w : world),
    mapToDatabaseFormat host reqBody = Throw e ->
    OrderController.createNewOrder host reqBody w =
    (Normal {| status := 500;
               body := Some (VObj [("message",
                                    VStr "Erro interno do servidor ao criar o pedido.");
                                   ("error", VStr (error_message e))]) |},
     w).
Proof.
  intros host reqBody e w Hmap.
  destruct (mapper_error_is_internal host reqBody e Hmap) as [Hcode Hsays].
  unfold OrderController.createNewOrder, try_catch. unfold mbind at 1.
  unfold createOrder. unfold mbind at 1. unfold lift. rewrite Hmap.
  rewrite Hcode, Hsays. reflexivity.
Qed.

Lemma createNewOrder_mapper_failure_witness :
  mapToDatabaseFormat sample_host (VObj order_without_number) =
  Throw (TypeError "Cannot read properties of undefined (reading 'split')") /\
  OrderController.createNewOrder sample_host (VObj order_without_number) empty_world =
  (Normal {| status := 500;
             body := Some (VObj [("message",
                                  VStr "Erro interno do servidor ao criar o pedido.");
                                 ("error",
                                  VStr "Cannot read properties of undefined (reading 'split')")]) |},
   empty_world).
Proof.
  split; [reflexivity |].
  exact (createNewOrder_mapper_failure sample_host (VObj order_without_number) _
           empty_world eq_refl).
Defined.

Lemma getOrderDetails_returns_object :
  forall (host : Host) (id : string) (w w' : world) (v : jsval),
    getOrderDetails host id w = (Normal v, w') -> truthy v = true.
Proof.
  intros host id w w' v H. unfold getOrderDetails in H.
  apply mbind_Normal_inv in H. destruct H as (orderResult & w1 & _ & H).
  destruct (rows orderResult) as [| orderRow rest]; [discriminate |].
  apply mbind_Normal_inv in H. destruct H as (itemsResult & w2 & _ & H).
  unfold lift in H. rewrite format_response_total in H.
  inversion H. reflexivity.
Qed.

(** X14: [getOrder] always answers, and its answer is 200 or 500: it never
    answers 404, neither from its [!order] branch (what the service returns
    is an object) nor from its [catch], which answers 500 to every error; an
    id without header row, when the lookup does not fail, gets 500 with the
    message of the ReferenceError. *)
Theorem getOrder_answers_200_or_500 :
  forall (host : Host) (orderId : string) (w : world),
    (exists r,
        fst (OrderController.getOrder host orderId w) = Normal r /\
        (status r = 200 \/ status r = 500)) /\
    (fault_now w = None ->
     has_order orderId (committed w) = false ->
     fst (OrderController.getOrder host orderId w) =
     Normal {| status := 500;
               body := Some (VObj [("message",
                                    VStr "Erro interno do servidor ao buscar o pedido.");
                                   ("error",
                                    VStr "ResourceNotFoundException is not defined")]) |}).
Proof.
  intros host id w. split.
  - unfold OrderController.getOrder, try_catch. unfold mbind at 1.
    destruct (getOrderDetails host id w) as [[v | e] w'] eqn:Hrun.
    + rewrite (getOrderDetails_returns_object _ _ _ _ _ Hrun). simpl.
      eexists. split; [reflexivity | left; reflexivity].
    + simpl. eexists. split; [reflexivity | right; reflexivity].
  - intros Hf Hmissing.
    unfold OrderController.getOrder, try_catch. unfold mbind at 1.
    unfold getOrderDetails. unfold mbind at 1.
    rewrite select_order_step, Hf. cbv zeta. cbn [rows].
    rewrite (filter_none _ _ _ Hmissing). reflexivity.
Qed.

Lemma getOrder_answers_200_or_500_witness :
  fault_now example_world = None /\
  has_order "1002" (committed example_world) = false /\
  fst (OrderController.getOrder sample_host "1002" example_world) =
  Normal {| status := 500;
            body := Some (VObj [("message",
                                 VStr "Erro interno do servidor ao buscar o pedido.");
                                ("error",
                                 VStr "ResourceNotFoundException is not defined")]) |}.
Proof.
  split; [reflexivity |]. split; [reflexivity |].
  exact (proj2 (getOrder_answers_200_or_500 sample_host "1002" example_world)
           eq_refl eq_refl).
Defined.

(** X15: [updateExistingOrder] never updates anything. It calls
    [OrderService.updateOrderHeaderOnly], which the service does not export;
    the TypeError of that call is caught, and the [catch] block throws in
    turn, on the identifier [ResourceNotFoundException] that the controller
    does not bind. For every id, every body and every world the handler ends
    by throwing that ReferenceError, sends no answer and leaves the world
    untouched. *)
Theorem updateExistingOrder_never_updates :
  forall (orderId : string) (reqBody : jsval) (w : world),
    OrderController.updateExistingOrder orderId reqBody w =
    (Throw (ReferenceError "ResourceNotFoundException is not defined"), w).
Proof.
  intros id reqBody w. reflexivity.
Qed.

(** X16: [updateOrderItem] has three outcomes only. A product id that is not
    a number is answered with 400 before the service is called, the world
    untouched. Otherwise, if the service returns, the answer is 200; and if
    the service throws, whatever it throws, the handler throws the
    ReferenceError of its own [catch] block and sends no answer: it never
    answers 404 or 500. *)
Theorem updateOrderItem_outcomes :
  forall (host : Host) (orderId productId : string) (reqBody : jsval) (w : world),
    let numericProductId := parseInt10 host (VStr productId) in
    OrderController.updateOrderItem host orderId productId reqBody w =
    if is_nan numericProductId then
      (Normal {| status := 400;
                 body := Some (VObj [("message",
                                      VStr "O ID do produto deve ser um número válido.")]) |},
       w)
    else
      match updateItemOrder host orderId numericProductId reqBody w with
      | (Normal _, w') =>
          (Normal {| status := 200;
                     body := Some (VObj [("message",
                                          VStr ("Item " ++ productId ++ " do Pedido "
                                                  ++ orderId ++ " atualizado com sucesso."))]) |},
           w')
      | (Throw _, w') =>
          (Throw (ReferenceError "ResourceNotFoundException is not defined"), w')
      end.
Proof.
  intros host id pid reqBody w numericProductId.
  unfold OrderController.updateOrderItem, try_catch. fold numericProductId.
  destruct (is_nan numericProductId); [reflexivity |].
  unfold mbind at 1.
  destruct (updateItemOrder host id numericProductId reqBody w) as [[b | e] w'];
    reflexivity.
Qed.

(** X17: [deleteExistingOrder] answers 204 with no body when the service
    returns; when the service throws, whatever it throws, the handler throws
    the ReferenceError of its own [catch] block and sends no answer: it
    never answers 404 or 500. *)
Theorem deleteExistingOrder_outcomes :
  forall (orderId : string) (w : world),
    OrderController.deleteExistingOrder orderId w =
    match deleteOrder orderId w with
    | (Normal _, w') => (Normal {| status := 204; body := None |}, w')
    | (Throw _, w') =>
        (Throw (ReferenceError "ResourceNotFoundException is not defined"), w')
    end.
Proof.
  intros id w.
  unfold OrderController.deleteExistingOrder, try_catch. unfold mbind at 1.
  destruct (deleteOrder id w) as [[u | e] w']; reflexivity.
Qed.

(** X18: the handler [listAllOrders] always answers, with 200 or 500: 200
    and the array of the service when the query succeeds, one entry per
    header row, newest first; 500 with the message of the error as [error]
    when it fails. It never throws. *)
Theorem listAllOrders_answers_200_or_500 :
  forall (host : Host) (w : world),
    match fault_now w with
    | Some e =>
        OrderController.listAllOrders host w =
        (Normal {| status := 500;
                   body := Some (VObj [("message",
                                        VStr "Erro interno do servidor ao listar os pedidos.");
                                       ("error", VStr (error_message e))]) |}, w)
    | None =>
        exists found,
          Permutation (Orders (committed w)) found /\
          StronglySorted newer_first found /\
          OrderController.listAllOrders host w =
          (Normal {| status := 200;
                     body := Some (VArr (map (summary_of host) found)) |}, w)
    end.
Proof.
  intros host w.
  unfold OrderController.listAllOrders, try_catch, OrderService.listAllOrders, mbind,
    findAllOrders.
  destruct (fault_now w); [reflexivity |].
  exists (order_by_creationDate_desc (Orders (committed w))).
  split; [apply order_by_creationDate_desc_perm |].
  split; [apply order_by_creationDate_desc_sorted |].
  cbn [rows]. unfold lift. rewrite cmap_order_summary. reflexivity.
Qed.

(** X19: [createNewOrder] on a payload that the mapper accepts, with a free
    order number and product ids that fit the integer column, when no call
    fails: the answer is 201 with the new orderId and the mapped order as
    [data], and the header of the order is in the committed store. *)
Theorem createNewOrder_created :
  forall (host : Host) (reqBody : jsval) (m : order_data) (w : world),
    session w = None ->
    (forall k, faults w k = None) ->
    mapToDatabaseFormat host reqBody = Normal m ->
    has_order (orderId m) (committed w) = false ->
    Forall (fun it => exists n, int4_in (productId it) = Normal n) (items m) ->
    exists w',
      OrderController.createNewOrder host reqBody w =
      (Normal {| status := 201;
                 body := Some (VObj [("message", VStr "Pedido criado com sucesso.");
                                     ("orderId", VStr (orderId m));
                                     ("data", order_json m)]) |}, w') /\
      has_order (orderId m) (committed w') = true /\
      List.length (Items (committed w')) =
      (List.length (Items (committed w)) + List.length (items m))%nat.
Proof.
  intros host reqBody m w Hs Hf Hmap Hfree Hids.
  destruct (createOrder_commits host reqBody m w Hs Hf Hmap Hfree Hids)
    as (t & rs & w' & _ & Hrows & Hrun & Hdb & _).
  exists w'. split.
  - unfold OrderController.createNewOrder, try_catch. unfold mbind at 1.
    rewrite Hrun. reflexivity.
  - rewrite Hdb. split.
    + unfold has_order. cbn [Orders]. rewrite existsb_app. simpl.
      rewrite String.eqb_refl. simpl. apply orb_true_r.
    + cbn [Items]. rewrite length_app. f_equal. symmetry.
      clear - Hrows. induction Hrows; simpl; congruence.
Qed.

Lemma createNewOrder_created_witness :
  session empty_world = None /\
  mapToDatabaseFormat sample_host example_order =
  Normal {| orderId := "1001"; value := VNum 99.5;
            creationDate := "2024-01-01T00:00:00.000Z";
            items := [{| productId := 7; quantity := VNum 2; price := VNum 10 |}] |} /\
  has_order "1001" (committed empty_world) = false /\
  int4_in 7 = Normal 7%Z /\
  exists r w',
    OrderController.createNewOrder sample_host example_order empty_world = (Normal r, w') /\
    status r = 201 /\
    has_order "1001" (committed w') = true.
Proof.
  assert (Hids : Forall (fun it => exists n, int4_in (productId it) = Normal n)
                    [{| productId := 7; quantity := VNum 2; price := VNum 10 |}]).
  { constructor; [exists 7%Z; reflexivity | constructor]. }
  split; [reflexivity |]. split; [vm_compute; reflexivity |].
  split; [reflexivity |]. split; [reflexivity |].
  destruct (createNewOrder_created sample_host example_order
              {| orderId := "1001"; value := VNum 99.5;
                 creationDate := "2024-01-01T00:00:00.000Z";
                 items := [{| productId := 7; quantity := VNum 2; price := VNum 10 |}] |}
              empty_world eq_refl (fun _ => eq_refl) eq_refl eq_refl Hids)
    as (w' & Hrun & Hhas & _).
  eexists. exists w'. split; [exact Hrun |]. split; [reflexivity | exact Hhas].
Defined.

(** X20: [createNewOrder] always answers and never throws: whatever the
    payload and whatever fails underneath, the result is an answer whose
    status is 201, 409, 400 or 500; and 201 is sent only when the service
    returned. *)
Theorem createNewOrder_always_answers :
  forall (host : Host) (reqBody : jsval) (w : world),
    exists r w',
      OrderController.createNewOrder host reqBody w = (Normal r, w') /\
      (status r = 201 \/ status r = 409 \/ status r = 400 \/ status r = 500) /\
      (status r = 201 ->
       exists result, createOrder host reqBody w = (Normal result, w')).
Proof.
  intros host reqBody w.
  unfold OrderController.createNewOrder, try_catch. unfold mbind at 1.
  destruct (createOrder host reqBody w) as [[result | e] w'].
  - do 2 eexists. split; [reflexivity |]. split; [left; reflexivity |].
    intros _. exists result. reflexivity.
  - destruct (OrderController.strict_equal (error_code e)
                (VStr OrderController.PG_DUPLICATE_KEY_CODE)).
    + do 2 eexists. split; [reflexivity |]. split; [right; left; reflexivity |].
      simpl. discriminate.
    + destruct (OrderController.says_invalid e).
      * do 2 eexists. split; [reflexivity |].
        split; [right; right; left; reflexivity |]. simpl. discriminate.
      * do 2 eexists. split; [reflexivity |].
        split; [right; right; right; reflexivity |]. simpl. discriminate.
Qed.
